(** * Clip-Videos-Generate-Subtitles: a shallow embedding of the two scripts

    [1_Clip_Videos.py] cuts dive videos into fixed-length clips around the
    transect recorded in the dive log; [2_Generate_Subtitles.py] writes one
    caption file per clip from the telemetry table.

    The development has three parts:
    - [Py]: the Python built-ins the scripts call ([str.split], list
      indexing, [int], [datetime.strptime]/[strftime], [datetime] and
      [timedelta] arithmetic), written after CPython 3.9;
    - [ClipVideos]: the body of [1_Clip_Videos.py];
    - [GenerateSubtitles]: the body of [2_Generate_Subtitles.py].

    Strings are Rocq strings (code points below 256).  A script run is a
    computation that emits events (console prints, external tool calls, file
    writes) and ends normally or with an unhandled Python exception. *)

From Stdlib Require Import ZArith QArith Lia Ascii String List.
From stdpp Require Import base list strings gmap.

Local Open Scope string_scope.
Local Open Scope Z_scope.
Local Open Scope list_scope.

(** ** Python built-ins *)

Module Py.

(** Unhandled exceptions the two scripts can end with. *)
Inductive exn : Type :=
| IndexError
| ValueError
| TypeError
| OverflowError
| OutOfBoundsDatetime.

(** Outcome of evaluating an expression: a value or a raised exception.
    [OutOfFuel] is not a Python outcome: it marks a model run whose step
    budget for the [while] loop was too small. *)
Inductive result (A : Type) : Type :=
| Ok (a : A)
| Raise (e : exn)
| OutOfFuel.
Arguments Ok {A} a.
Arguments Raise {A} e.
Arguments OutOfFuel {A}.

Definition rbind {A B} (r : result A) (k : A -> result B) : result B :=
  match r with
  | Ok a => k a
  | Raise e => Raise e
  | OutOfFuel => OutOfFuel
  end.

Declare Scope py_scope.
Delimit Scope py_scope with py.
Notation "'let!' x ':=' r 'in' k" := (rbind r (fun x => k))
  (at level 10, x pattern, r at level 100, k at level 200) : py_scope.

(** *** Strings *)

(** [s.split(sep)] for a one-character separator: every occurrence of [sep]
    ends a field, so the result is never empty. *)
Fixpoint split (sep : ascii) (s : string) : list string :=
  match s with
  | EmptyString => [""]
  | String c s' =>
      if Ascii.eqb c sep then "" :: split sep s'
      else match split sep s' with
           | [] => [String c ""]
           | w :: ws => String c w :: ws
           end
  end.

(** [sep.join(parts)] *)
Fixpoint join (sep : ascii) (parts : list string) : string :=
  match parts with
  | [] => ""
  | [p] => p
  | p :: ps => p +:+ String sep (join sep ps)
  end.

(** [c in s] for a character *)
Fixpoint has_char (c : ascii) (s : string) : bool :=
  match s with
  | EmptyString => false
  | String a s' => Ascii.eqb a c || has_char c s'
  end.

(** [parts[i]] on a list: [IndexError] past the end. *)
Definition index {A} (l : list A) (i : nat) : result A :=
  match l !! i with
  | Some x => Ok x
  | None => Raise IndexError
  end.

(** Value of a decimal digit character. *)
Definition digit (c : ascii) : option Z :=
  let n := Z.of_nat (nat_of_ascii c) in
  if (48 <=? n) && (n <=? 57) then Some (n - 48) else None.

Definition digit_char (d : Z) : ascii := ascii_of_nat (Z.to_nat (48 + d)).

(** Characters matched by [\s] and stripped by [int]: tab, LF, VT, FF, CR,
    the separators 0x1c-0x1f, space, NEL and no-break space. *)
Definition is_space (c : ascii) : bool :=
  let n := Z.of_nat (nat_of_ascii c) in
  ((9 <=? n) && (n <=? 13)) || ((28 <=? n) && (n <=? 32))
  || (n =? 133) || (n =? 160).

(** Decimal text of a non-negative number, most significant digit first;
    [fuel] bounds the number of digits. *)
Fixpoint digits_of (fuel : nat) (n : Z) (acc : string) : string :=
  match fuel with
  | O => acc
  | S f =>
      let acc' := String (digit_char (n mod 10)) acc in
      if n <? 10 then acc' else digits_of f (n / 10) acc'
  end.

(** [str(n)] for an integer. *)
Definition str_int (n : Z) : string :=
  if n <? 0 then String "-"%char (digits_of (Z.to_nat (Z.log2 (- n)) + 1) (- n) "")
  else digits_of (Z.to_nat (Z.log2 n) + 1) n "".

(** ["%02d" % n] and ["%04d" % n]: zero padding to a minimum width. *)
Definition pad2 (n : Z) : string :=
  if (0 <=? n) && (n <? 10) then String "0"%char (str_int n) else str_int n.

Definition pad4 (n : Z) : string :=
  if (0 <=? n) && (n <? 10) then "000" +:+ str_int n
  else if (0 <=? n) && (n <? 100) then "00" +:+ str_int n
  else if (0 <=? n) && (n <? 1000) then "0" +:+ str_int n
  else str_int n.

(** [s.strip()] *)
Fixpoint lstrip (s : string) : string :=
  match s with
  | EmptyString => ""
  | String c r => if is_space c then lstrip r else s
  end.

Fixpoint rstrip (s : string) : string :=
  match s with
  | EmptyString => ""
  | String c r =>
      match rstrip r with
      | EmptyString => if is_space c then "" else String c ""
      | r' => String c r'
      end
  end.

Definition strip (s : string) : string := rstrip (lstrip s).

(** Digits of a base-10 integer literal; single underscores may separate
    digits.  [prev] tells whether the previous character was a digit. *)
Fixpoint int_digits (s : string) (acc : Z) (prev : bool) : option Z :=
  match s with
  | EmptyString => if prev then Some acc else None
  | String c r =>
      match digit c with
      | Some d => int_digits r (10 * acc + d) true
      | None => if Ascii.eqb c "_" && prev then int_digits r acc false else None
      end
  end.

(** [int(s)] for a string: surrounding whitespace, an optional sign, digits. *)
Definition int_of_string (s : string) : result Z :=
  let body :=
    match strip s with
    | String "+" r => int_digits r 0 false
    | String "-" r => Z.opp <$> int_digits r 0 false
    | t => int_digits t 0 false
    end in
  match body with
  | Some n => Ok n
  | None => Raise ValueError
  end.

(** [re.sub('[^0-9.]', '', s)] *)
Fixpoint keep_digits_dots (s : string) : string :=
  match s with
  | EmptyString => ""
  | String c r =>
      if bool_decide (is_Some (digit c)) || Ascii.eqb c "."
      then String c (keep_digits_dots r) else keep_digits_dots r
  end.

(** A non-negative decimal number [mant / 10 ^ scale].  The scripts hold the
    probed duration in a Python [float]; the model keeps the exact value of
    the decimal text the probe printed. *)
Record decimal : Type := Decimal { mant : Z; scale : nat }.

Fixpoint float_frac (s : string) (acc : Z) (k : nat) (seen : bool) : option decimal :=
  match s with
  | EmptyString => if seen then Some (Decimal acc k) else None
  | String c r =>
      match digit c with
      | Some d => float_frac r (10 * acc + d) (S k) true
      | None => None
      end
  end.

Fixpoint float_int (s : string) (acc : Z) (seen : bool) : option decimal :=
  match s with
  | EmptyString => if seen then Some (Decimal acc 0) else None
  | String c r =>
      match digit c with
      | Some d => float_int r (10 * acc + d) true
      | None => if Ascii.eqb c "." then float_frac r acc 0 seen else None
      end
  end.

(** [float(s)] on a string made of digits and dots only: digits with at most
    one dot and at least one digit, [ValueError] otherwise. *)
Definition float_of_string (s : string) : result decimal :=
  match float_int s 0 false with
  | Some d => Ok d
  | None => Raise ValueError
  end.

(** [n > x] for an integer [n] and a decimal [x]. *)
Definition int_gt_decimal (n : Z) (x : decimal) : bool :=
  mant x <? n * 10 ^ Z.of_nat (scale x).

(** [int(x + 1)] for a non-negative decimal [x]. *)
Definition int_succ_decimal (x : decimal) : Z :=
  (mant x + 10 ^ Z.of_nat (scale x)) / 10 ^ Z.of_nat (scale x).

(** *** [datetime] and [timedelta] *)

(** A naive [datetime]: the civil fields, as CPython stores them.  The
    scripts only build values with whole seconds. *)
Record datetime : Type := Datetime {
  year : Z; month : Z; day : Z; hour : Z; minute : Z; second : Z
}.

(** A [timedelta], normalised: [0 <= seconds < 86400]; the microseconds are
    always zero in these scripts. *)
Record timedelta : Type := Timedelta { days : Z; seconds : Z }.

Definition is_leap (y : Z) : bool :=
  (y mod 4 =? 0) && (negb (y mod 100 =? 0) || (y mod 400 =? 0)).

Definition DAYS_IN_MONTH : list Z := [31; 28; 31; 30; 31; 30; 31; 31; 30; 31; 30; 31].
Definition DAYS_BEFORE_MONTH : list Z := [0; 31; 59; 90; 120; 151; 181; 212; 243; 273; 304; 334].

Definition days_in_month (y m : Z) : Z :=
  if (m =? 2) && is_leap y then 29
  else nth (Z.to_nat (m - 1)) DAYS_IN_MONTH 0.

Definition days_before_year (y : Z) : Z :=
  let y' := y - 1 in y' * 365 + y' / 4 - y' / 100 + y' / 400.

Definition days_before_month (y m : Z) : Z :=
  nth (Z.to_nat (m - 1)) DAYS_BEFORE_MONTH 0
  + (if (2 <? m) && is_leap y then 1 else 0).

Definition ymd2ord (y m d : Z) : Z :=
  days_before_year y + days_before_month y m + d.

Definition DI400Y : Z := 146097.
Definition DI100Y : Z := 36524.
Definition DI4Y : Z := 1461.
Definition MAXORDINAL : Z := 3652059.

(** [_ord2ymd]: the civil date of a proleptic Gregorian ordinal. *)
Definition ord2ymd (ordinal : Z) : Z * Z * Z :=
  let n := ordinal - 1 in
  let n400 := n / DI400Y in
  let n := n mod DI400Y in
  let y := n400 * 400 + 1 in
  let n100 := n / DI100Y in
  let n := n mod DI100Y in
  let n4 := n / DI4Y in
  let n := n mod DI4Y in
  let n1 := n / 365 in
  let n := n mod 365 in
  let y := y + n100 * 100 + n4 * 4 + n1 in
  if (n1 =? 4) || (n100 =? 4) then (y - 1, 12, 31)
  else
    let leapyear := (n1 =? 3) && (negb (n4 =? 24) || (n100 =? 3)) in
    let m := Z.shiftr (n + 50) 5 in
    let preceding :=
      nth (Z.to_nat (m - 1)) DAYS_BEFORE_MONTH 0
      + (if (2 <? m) && leapyear then 1 else 0) in
    if n <? preceding then
      let m' := m - 1 in
      let preceding' :=
        preceding
        - (nth (Z.to_nat (m' - 1)) DAYS_IN_MONTH 0
           + (if (m' =? 2) && leapyear then 1 else 0)) in
      (y, m', n - preceding' + 1)
    else (y, m, n - preceding + 1).

Definition toordinal (dt : datetime) : Z := ymd2ord (year dt) (month dt) (day dt).

Definition day_seconds (dt : datetime) : Z :=
  second dt + minute dt * 60 + hour dt * 3600.

(** [timedelta(days=d, seconds=s)]: seconds carried into days;
    [OverflowError] beyond 999999999 days. *)
Definition mk_timedelta (d s : Z) : result timedelta :=
  let d' := d + s / 86400 in
  if Z.abs d' <=? 999999999 then Ok (Timedelta d' (s mod 86400))
  else Raise OverflowError.

(** [a + b] on timedeltas *)
Definition td_add (a b : timedelta) : result timedelta :=
  mk_timedelta (days a + days b) (seconds a + seconds b).

(** [-a] on a timedelta *)
Definition td_neg (a : timedelta) : result timedelta :=
  mk_timedelta (- days a) (- seconds a).

(** [a - b] on datetimes *)
Definition dt_sub (a b : datetime) : result timedelta :=
  mk_timedelta (toordinal a - toordinal b) (day_seconds a - day_seconds b).

(** [a + d] for a datetime and a timedelta: [OverflowError] when the result
    leaves the years 1..9999. *)
Definition dt_add (a : datetime) (d : timedelta) : result datetime :=
  (let! delta := mk_timedelta (toordinal a + days d) (day_seconds a + seconds d) in
   if (0 <? days delta) && (days delta <=? MAXORDINAL) then
     let '(y, m, dd) := ord2ymd (days delta) in
     let h := seconds delta / 3600 in
     let rem := seconds delta mod 3600 in
     Ok (Datetime y m dd h (rem / 60) (rem mod 60))
   else Raise OverflowError)%py.

(** [a - d] for a datetime and a timedelta *)
Definition dt_sub_td (a : datetime) (d : timedelta) : result datetime :=
  (let! nd := td_neg d in dt_add a nd)%py.

(** [a > b] on datetimes: the field tuples compared lexicographically. *)
Definition dt_fields (a : datetime) : list Z :=
  [year a; month a; day a; hour a; minute a; second a].

Fixpoint lex_gt (xs ys : list Z) : bool :=
  match xs, ys with
  | x :: xs', y :: ys' => (y <? x) || ((x =? y) && lex_gt xs' ys')
  | _ :: _, [] => true
  | [], _ => false
  end.

Definition dt_gt (a b : datetime) : bool := lex_gt (dt_fields a) (dt_fields b).

(** [str(d)] for a timedelta: ["H:MM:SS"], after ["D day(s), "] when the
    day count is not zero. *)
Definition str_timedelta (d : timedelta) : string :=
  let mm := seconds d / 60 in
  let ss := seconds d mod 60 in
  let hh := mm / 60 in
  let mm := mm mod 60 in
  let s := str_int hh +:+ ":" +:+ pad2 mm +:+ ":" +:+ pad2 ss in
  if days d =? 0 then s
  else str_int (days d) +:+ " day" +:+ (if Z.abs (days d) =? 1 then "" else "s")
       +:+ ", " +:+ s.

(** *** [strptime] and [strftime]

    [datetime.strptime] turns the format into a regular expression, takes
    the first match of it at the start of the text (alternatives in the
    order written, backtracking), and fails when the text does not match or
    is not used up.  A matcher returns the candidates in that order. *)

Inductive directive : Type :=
| DY            (* %Y: \d\d\d\d *)
| Dm            (* %m: 1[0-2]|0[1-9]|[1-9] *)
| Dd            (* %d: 3[0-1]|[1-2]\d|0[1-9]|[1-9]| [1-9] *)
| DH            (* %H: 2[0-3]|[0-1]\d|\d *)
| DM            (* %M: [0-5]\d|\d *)
| DS            (* %S: 6[0-1]|[0-5]\d|\d *)
| DSpace        (* white space in the format: \s+ *)
| DLit (c : ascii).

(** ['%Y%m%d %H%M%S'], the video file names of [1_Clip_Videos.py] *)
Definition fmt_video : list directive := [DY; Dm; Dd; DSpace; DH; DM; DS].
(** ['%Y-%m-%d %H:%M:%S'], the dive log and the telemetry table *)
Definition fmt_log : list directive :=
  [DY; DLit "-"; Dm; DLit "-"; Dd; DSpace; DH; DLit ":"; DM; DLit ":"; DS].
(** ['%Y%m%d_%H%M%S'], the clip file names *)
Definition fmt_clip : list directive := [DY; Dm; Dd; DLit "_"; DH; DM; DS].

Definition any_digit (_ : Z) : bool := true.

(** Two digits [x y] with [p x] and [q y]; value [10 x + y]. *)
Definition two (p q : Z -> bool) (s : string) : list (Z * string) :=
  match s with
  | String a (String b r) =>
      match digit a, digit b with
      | Some x, Some y => if p x && q y then [(10 * x + y, r)] else []
      | _, _ => []
      end
  | _ => []
  end.

(** One digit [x] with [p x]. *)
Definition one (p : Z -> bool) (s : string) : list (Z * string) :=
  match s with
  | String a r =>
      match digit a with
      | Some x => if p x then [(x, r)] else []
      | None => []
      end
  | _ => []
  end.

Definition re_Y (s : string) : list (Z * string) :=
  match s with
  | String a (String b (String c (String d r))) =>
      match digit a, digit b, digit c, digit d with
      | Some w, Some x, Some y, Some z => [(1000 * w + 100 * x + 10 * y + z, r)]
      | _, _, _, _ => []
      end
  | _ => []
  end.

Definition re_m (s : string) : list (Z * string) :=
  two (Z.eqb 1) (fun y => y <=? 2) s
  ++ two (Z.eqb 0) (Z.leb 1) s
  ++ one (Z.leb 1) s.

Definition re_d (s : string) : list (Z * string) :=
  two (Z.eqb 3) (fun y => y <=? 1) s
  ++ two (fun x => (1 <=? x) && (x <=? 2)) any_digit s
  ++ two (Z.eqb 0) (Z.leb 1) s
  ++ one (Z.leb 1) s
  ++ match s with
     | String " " r => one (Z.leb 1) r
     | _ => []
     end.

Definition re_H (s : string) : list (Z * string) :=
  two (Z.eqb 2) (fun y => y <=? 3) s
  ++ two (fun x => x <=? 1) any_digit s
  ++ one any_digit s.

Definition re_M (s : string) : list (Z * string) :=
  two (fun x => x <=? 5) any_digit s ++ one any_digit s.

Definition re_S (s : string) : list (Z * string) :=
  two (Z.eqb 6) (fun y => y <=? 1) s
  ++ two (fun x => x <=? 5) any_digit s
  ++ one any_digit s.

(** [\s+]: the rests after one or more white-space characters, longest run
    first. *)
Fixpoint re_space (s : string) : list string :=
  match s with
  | String c r => if is_space c then re_space r ++ [r] else []
  | EmptyString => []
  end.

Definition set_year (dt : datetime) (v : Z) : datetime :=
  Datetime v (month dt) (day dt) (hour dt) (minute dt) (second dt).
Definition set_month (dt : datetime) (v : Z) : datetime :=
  Datetime (year dt) v (day dt) (hour dt) (minute dt) (second dt).
Definition set_day (dt : datetime) (v : Z) : datetime :=
  Datetime (year dt) (month dt) v (hour dt) (minute dt) (second dt).
Definition set_hour (dt : datetime) (v : Z) : datetime :=
  Datetime (year dt) (month dt) (day dt) v (minute dt) (second dt).
Definition set_minute (dt : datetime) (v : Z) : datetime :=
  Datetime (year dt) (month dt) (day dt) (hour dt) v (second dt).
Definition set_second (dt : datetime) (v : Z) : datetime :=
  Datetime (year dt) (month dt) (day dt) (hour dt) (minute dt) v.

Definition with_field (set : datetime -> Z -> datetime) (dt : datetime)
    (l : list (Z * string)) : list (datetime * string) :=
  map (fun vr => (set dt (fst vr), snd vr)) l.

Definition match_directive (d : directive) (dt : datetime) (s : string)
    : list (datetime * string) :=
  match d with
  | DY => with_field set_year dt (re_Y s)
  | Dm => with_field set_month dt (re_m s)
  | Dd => with_field set_day dt (re_d s)
  | DH => with_field set_hour dt (re_H s)
  | DM => with_field set_minute dt (re_M s)
  | DS => with_field set_second dt (re_S s)
  | DSpace => map (pair dt) (re_space s)
  | DLit c =>
      match s with
      | String a r => if Ascii.eqb a c then [(dt, r)] else []
      | EmptyString => []
      end
  end.

Fixpoint match_format (ds : list directive) (dt : datetime) (s : string)
    : list (datetime * string) :=
  match ds with
  | [] => [(dt, s)]
  | d :: ds' =>
      concat (map (fun c => match_format ds' (fst c) (snd c)) (match_directive d dt s))
  end.

(** The checks of the [datetime] constructor. *)
Definition valid_datetime (dt : datetime) : bool :=
  (1 <=? year dt) && (year dt <=? 9999)
  && (1 <=? month dt) && (month dt <=? 12)
  && (1 <=? day dt) && (day dt <=? days_in_month (year dt) (month dt))
  && (0 <=? hour dt) && (hour dt <=? 23)
  && (0 <=? minute dt) && (minute dt <=? 59)
  && (0 <=? second dt) && (second dt <=? 59).

(** [datetime.strptime(s, fmt)]; fields absent from the format default to
    1900-01-01 00:00:00. *)
Definition strptime (s : string) (fmt : list directive) : result datetime :=
  match match_format fmt (Datetime 1900 1 1 0 0 0) s with
  | [] => Raise ValueError
  | (dt, rest) :: _ =>
      match rest with
      | EmptyString => if valid_datetime dt then Ok dt else Raise ValueError
      | _ => Raise ValueError
      end
  end.

(** [strptime] on the result of [dict.get]: [None] is not a string. *)
Definition strptime_opt (s : option string) (fmt : list directive) : result datetime :=
  match s with
  | Some s => strptime s fmt
  | None => Raise TypeError
  end.

(** [dt.strftime('%Y%m%d_%H%M%S')] *)
Definition strftime_clip (dt : datetime) : string :=
  pad4 (year dt) +:+ pad2 (month dt) +:+ pad2 (day dt) +:+ "_"
  +:+ pad2 (hour dt) +:+ pad2 (minute dt) +:+ pad2 (second dt).

(** [l[i]] with Python's negative indices counting from the end. *)
Definition index_z {A} (l : list A) (i : Z) : result A :=
  let j := if i <? 0 then i + Z.of_nat (length l) else i in
  if j <? 0 then Raise IndexError else index l (Z.to_nat j).

(** *** Script runs

    A run emits events of type [E] in order and ends with a value or an
    unhandled exception; what was emitted before the exception stays. *)

Definition M (E A : Type) : Type := list E * result A.

Definition ret {E A} (a : A) : M E A := ([], Ok a).

Definition lift {E A} (r : result A) : M E A := ([], r).

Definition emit {E} (e : E) : M E unit := ([e], Ok tt).

Definition bind {E A B} (m : M E A) (k : A -> M E B) : M E B :=
  match m with
  | (out, Ok a) => let '(out', r) := k a in (out ++ out', r)
  | (out, Raise e) => (out, Raise e)
  | (out, OutOfFuel) => (out, OutOfFuel)
  end.

Notation "'do!' x ':=' m 'in' k" := (bind m (fun x => k))
  (at level 10, x pattern, m at level 100, k at level 200) : py_scope.

(** [if c: body] around a statement *)
Definition when {E} (c : bool) (body : M E unit) : M E unit :=
  if c then body else ret tt.

(** [for x in xs: body(x)] *)
Fixpoint for_each {E A} (xs : list A) (body : A -> M E unit) : M E unit :=
  match xs with
  | [] => ret tt
  | x :: xs' => bind (body x) (fun _ => for_each xs' body)
  end.

End Py.

Import Py.
Local Open Scope py_scope.

(** ** [1_Clip_Videos.py] *)

Module ClipVideos.

(** The inputs section and what the script reads from its surroundings. *)
Record env : Type := Env {
  clipsize : string;                  (* size of video clips in minutes, as text *)
  videopath : string;                 (* folder with the videos *)
  divelog : list (list string);       (* the rows [csv.reader] yields for the dive log *)
  dive : Z;                           (* column with dive name *)
  start : Z;                          (* column with start time *)
  end_ : Z;                           (* column with end time *)
  videofiles : list string;           (* [os.listdir(videopath)] *)
  ffprobe : string -> string          (* stdout of the duration probe, per command line *)
}.

Definition outputdir : string := "Video_clips".

(** One [ffmpeg] call: the clip boundary it cuts. *)
Record boundary : Type := Boundary {
  source : string;        (* the video file *)
  offset : timedelta;     (* [elapsedSecs], the [-ss] argument *)
  length_min : string;    (* [clipsize], the minutes of the [-t] argument *)
  clipname : string       (* the output path *)
}.

Inductive event : Type :=
| Print (msg : string)
| Call (b : boundary).

(** The command line handed to [subprocess.call]. *)
Definition clipcall (vp : string) (b : boundary) : string :=
  "ffmpeg -ss " +:+ str_timedelta (offset b) +:+ " -i " +:+ vp +:+ "/" +:+ source b
  +:+ " -t 00:" +:+ length_min b +:+ ":00 -c copy " +:+ clipname b.

(** [csv_dict]: a dictionary from column [col1] to column [col2] of the rows,
    later rows overwriting earlier ones. *)
Fixpoint csv_dict_from (rows : list (list string)) (col1 col2 : Z)
    (d : gmap string string) : result (gmap string string) :=
  match rows with
  | [] => Ok d
  | r :: rows' =>
      let! k := index_z r (col1 - 1) in
      let! v := index_z r (col2 - 1) in
      csv_dict_from rows' col1 col2 (<[k := v]> d)
  end.

Definition csv_dict (rows : list (list string)) (col1 col2 : Z)
    : result (gmap string string) :=
  csv_dict_from rows col1 col2 ∅.

Section Script.

Variable e : env.

(** The two dictionaries of the set-up, with the header row's key removed. *)
Definition startsDict : result (gmap string string) :=
  let! d := csv_dict (divelog e) (dive e) (start e) in Ok (delete "Dive_Name" d).

Definition endsDict : result (gmap string string) :=
  let! d := csv_dict (divelog e) (dive e) (end_ e) in Ok (delete "Dive_Name" d).

(** Lines 95-98: the fields of the file name. *)
Definition parse_filename (video : string) : result (string * string * string) :=
  let parts := split "_" video in
  let! tripid := index parts 0 in
  let! divename := index parts 1 in
  let! p2 := index parts 2 in
  let! p3 := index parts 3 in
  let! stem := index (split "." p3) 0 in
  Ok (tripid, divename, p2 +:+ " " +:+ stem).

(** Line 121: the command line of the duration probe. *)
Definition durcall (video : string) : string :=
  "ffprobe -v error -show_entries format=duration " +:+ videopath e +:+ "/" +:+ video.

(** Line 126: [(transectEndDateTime - videoStartDateTime).seconds] *)
Definition elapsed_end (transectEndDateTime videoStartDateTime : datetime) : result Z :=
  let! d := dt_sub transectEndDateTime videoStartDateTime in Ok (seconds d).

(** Lines 132-145: the clip loop.  [fuel] bounds the number of iterations. *)
Fixpoint clip_loop (fuel : nat) (video tripid divename : string)
    (videoStartDateTime : datetime) (elapsedSecs_endtransect : Z)
    (elapsedSecs : timedelta) : M event unit :=
  match fuel with
  | O => lift OutOfFuel
  | S fuel' =>
      if seconds elapsedSecs <? elapsedSecs_endtransect then
        do! starttime := lift (dt_add videoStartDateTime elapsedSecs) in
        let strstarttime := strftime_clip starttime in
        let clipname := outputdir +:+ "/" +:+ tripid +:+ "_" +:+ divename +:+ "_"
                        +:+ strstarttime +:+ ".mp4" in
        do! _ := emit (Call (Boundary video elapsedSecs (clipsize e) clipname)) in
        do! n := lift (int_of_string (clipsize e)) in
        do! step := lift (mk_timedelta 0 (n * 60)) in
        do! elapsedSecs' := lift (td_add elapsedSecs step) in
        clip_loop fuel' video tripid divename videoStartDateTime
                  elapsedSecs_endtransect elapsedSecs'
      else ret tt
  end.

(** Lines 94-145: the body of the loop over the video files. *)
Definition process_video (fuel : nat) (starts ends : gmap string string)
    (video : string) : M event unit :=
  do! (tripid, divename, videostart) := lift (parse_filename video) in
  do! videoStartDateTime := lift (strptime videostart fmt_video) in
  let tstart := starts !! divename in
  do! transectStartDateTime := lift (strptime_opt tstart fmt_log) in
  let tend := ends !! divename in
  do! transectEndDateTime := lift (strptime_opt tend fmt_log) in
  do! _ := when (dt_gt videoStartDateTime transectStartDateTime)
             (emit (Print ("Warning! Transect " +:+ divename
                           +:+ " starts before the video file starts"))) in
  do! transectStartDateTime := lift (dt_sub_td transectStartDateTime (Timedelta 0 30)) in
  do! transectEndDateTime := lift (dt_add transectEndDateTime (Timedelta 0 30)) in
  do! elapsedSecs := lift (dt_sub transectStartDateTime videoStartDateTime) in
  do! dur := lift (float_of_string (keep_digits_dots (ffprobe e (durcall video)))) in
  do! elapsedSecs_endtransect := lift (elapsed_end transectEndDateTime videoStartDateTime) in
  do! _ := when (int_gt_decimal elapsedSecs_endtransect dur)
             (emit (Print ("Warning! Transect " +:+ divename
                           +:+ " ends after the video file finishes"))) in
  clip_loop fuel video tripid divename videoStartDateTime
            elapsedSecs_endtransect elapsedSecs.

(** The whole script: set-up, then every video file in turn. *)
Definition main (fuel : nat) : M event unit :=
  do! starts := lift startsDict in
  do! ends := lift endsDict in
  for_each (videofiles e) (process_video fuel starts ends).

End Script.

End ClipVideos.

(** ** [2_Generate_Subtitles.py] *)

Module GenerateSubtitles.

Definition nl : string := String "010"%char "".

(** The column names of the inputs section, after [names.insert(1, 'Time')]. *)
Definition names : list string :=
  ["Datetime"; "Time"; "Dive_Name"; "ROV_Longitude_loess"; "ROV_Latitude_loess";
   "Depth_m"; "Speed_kts"; "Altitude_m"].

(** [s.startswith(p)] *)
Fixpoint startswith (p s : string) : bool :=
  match p, s with
  | EmptyString, _ => true
  | String a p', String b s' => Ascii.eqb a b && startswith p' s'
  | String _ _, EmptyString => false
  end.

(** [re.sub('ROV_|loess', '', n)] *)
Fixpoint sub_rov_loess (skip : nat) (n : string) : string :=
  match n with
  | EmptyString => ""
  | String c r =>
      match skip with
      | S k => sub_rov_loess k r
      | O =>
          if startswith "ROV_" n then sub_rov_loess 3 r
          else if startswith "loess" n then sub_rov_loess 4 r
          else String c (sub_rov_loess 0 r)
      end
  end.

(** [re.sub('_.*', '', n)]: an underscore and the rest of its line. *)
Fixpoint sub_underscore (skipping : bool) (n : string) : string :=
  match n with
  | EmptyString => ""
  | String c r =>
      if skipping then
        if Ascii.eqb c "010" then String c (sub_underscore false r)
        else sub_underscore true r
      else if Ascii.eqb c "_" then sub_underscore true r
      else String c (sub_underscore false r)
  end.

Definition newnames : list string :=
  map (sub_underscore false) (map (sub_rov_loess 0) names).

(** [re.match('.*' + w, n)]: [w] occurs on the first line of [n]. *)
Fixpoint match_dotstar (w n : string) : bool :=
  startswith w n
  || match n with
     | EmptyString => false
     | String c r => negb (Ascii.eqb c "010") && match_dotstar w r
     end.

(** [r.match] for [r = re.compile('.*Lat|.*Lon|.*Time')] *)
Definition r_match (n : string) : bool :=
  match_dotstar "Lat" n || match_dotstar "Lon" n || match_dotstar "Time" n.

Definition stdfields : list string := filter (fun n => r_match n = true) newnames.

(** [set(newnames) - set(stdfields + ['Dive', 'Datetime'])] *)
Definition othercols_set : gset string :=
  list_to_set newnames ∖ list_to_set (stdfields ++ ["Dive"; "Datetime"]).

Section Script.

(** Floating-point cells: their type, [round(decimals=k)] and [str] are
    NumPy's and Python's. *)
Variable F : Type.
Variable round_float : Z -> F -> F.
Variable str_float : F -> string.

(** The text [astype(str)] gives an element of a timedelta column; pandas
    picks the layout from the whole column.  Arguments: the column, in
    seconds, and the element. *)
Variable timedelta_str : list Z -> Z -> string.

Inductive cell : Type :=
| CDatetime (t : Z)      (* a Timestamp: whole seconds since 1970-01-01 *)
| CTime (s : Z)          (* a [datetime.time]: second of the day *)
| CStr (s : string)
| CInt (n : Z)
| CFloat (x : F)
| CNaN.                  (* a missing value *)

(** A row of [data] after the set-up. *)
Record row : Type := Row {
  Datetime : Z;
  Time : Z;
  Dive_Name : string;
  sensors : list cell     (* the columns after [Dive_Name], in the order of [names] *)
}.

Record env : Type := Env {
  videopath : string;                             (* folder with the video clips *)
  csv : list (string * string * list cell);       (* [pd.read_csv(csvfile)[names]]:
                                                     Datetime text, Dive_Name, sensor cells *)
  videofiles : list string;                       (* [os.listdir(videopath)] *)
  ffprobe : string -> string;                     (* stdout of the duration probe *)
  set_iter : gset string -> list string           (* the order in which this run's
                                                     interpreter iterates over a set *)
}.

Inductive event : Type :=
| WriteFile (sfile : string) (strlist : list string).

(** Seconds since 1970-01-01 of a civil datetime. *)
Definition epoch_seconds (dt : datetime) : Z :=
  (toordinal dt - 719163) * 86400 + day_seconds dt.

(** The seconds a Timestamp or Timedelta can hold (64-bit nanoseconds). *)
Definition in_ns_range (t : Z) : bool :=
  (-9223372036 <=? t) && (t <=? 9223372036).

(** [pd.to_datetime(s, format=fmt)] *)
Definition to_datetime (s : string) (fmt : list directive) : result Z :=
  let! dt := strptime s fmt in
  let t := epoch_seconds dt in
  if in_ns_range t then Ok t else Raise OutOfBoundsDatetime.

(** [ts + pd.Timedelta(seconds=n)] *)
Definition ts_add (t n : Z) : result Z :=
  if in_ns_range n && in_ns_range (t + n) then Ok (t + n) else Raise OverflowError.

(** Lines 60-68: the set-up of [data]. *)
Fixpoint load (rows : list (string * string * list cell)) : result (list row) :=
  match rows with
  | [] => Ok []
  | (dt, dive, cs) :: rows' =>
      let! t := to_datetime dt fmt_log in
      let! rest := load rows' in
      Ok (Row t (t mod 86400) dive cs :: rest)
  end.

(** Lines 81-84: the fields of the clip's file name. *)
Definition parse_filename (video : string) : result (string * string * string) :=
  let parts := split "_" video in
  let! tripid := index parts 0 in
  let! divename := index parts 1 in
  let! p2 := index parts 2 in
  let! p3 := index parts 3 in
  let! stem := index (split "." p3) 0 in
  Ok (tripid, divename, p2 +:+ "_" +:+ stem).

(** Lines 97-103: the rows of the dive inside the clip's window. *)
Definition select (data : list row) (divename : string)
    (videoStartDateTime videoEndDateTime : Z) : list row :=
  let divedata := filter (fun r => Dive_Name r = divename) data in
  let vdata := filter (fun r => videoStartDateTime <= Datetime r) divedata in
  filter (fun r => Datetime r <= videoEndDateTime) vdata.

(** The cells of a row, in the order of the column labels. *)
Definition cells (r : row) : list cell :=
  CDatetime (Datetime r) :: CTime (Time r) :: CStr (Dive_Name r) :: sensors r.

(** [DataFrame.round]: numeric columns only; integers stay as they are. *)
Definition round_cell (decimals : Z) (c : cell) : cell :=
  match c with
  | CFloat x => CFloat (round_float decimals x)
  | _ => c
  end.

(** Position of a label among the columns. *)
Fixpoint col_pos (label : string) (cols : list string) : option nat :=
  match cols with
  | [] => None
  | c :: cols' => if String.eqb c label then Some O else S <$> col_pos label cols'
  end.

(** [vdata[label][i]] after lines 108-117: the cell of row [r] under
    [label], rounded to 1 decimal for a label in [othercols] and to 5 for
    one in [stdfields]; a row shorter than the header reads as missing. *)
Definition value (othercols : list string) (label : string) (r : row) : result cell :=
  match col_pos label newnames with
  | None => Raise IndexError
  | Some k =>
      let c := default CNaN (cells r !! k) in
      let c := if bool_decide (label ∈ othercols) then round_cell 1 c else c in
      let c := if bool_decide (label ∈ stdfields) then round_cell 5 c else c in
      Ok c
  end.

(** [str] of a cell *)
Definition str_cell (c : cell) : string :=
  match c with
  | CDatetime t =>
      let '(y, m, d) := ord2ymd (t / 86400 + 719163) in
      let s := t mod 86400 in
      pad4 y +:+ "-" +:+ pad2 m +:+ "-" +:+ pad2 d +:+ " "
      +:+ pad2 (s / 3600) +:+ ":" +:+ pad2 (s mod 3600 / 60) +:+ ":" +:+ pad2 (s mod 60)
  | CTime s => pad2 (s / 3600) +:+ ":" +:+ pad2 (s mod 3600 / 60) +:+ ":" +:+ pad2 (s mod 60)
  | CStr s => s
  | CInt n => str_int n
  | CFloat x => str_float x
  | CNaN => "nan"
  end.

(** Line 121: [astype(str).str.split(' ').str[-1]] *)
Definition elapsedstr (elapsed : list Z) (x : Z) : string :=
  List.last (split " " (timedelta_str elapsed x)) "".

(** [f'{label}: {str(vdata[label][i])}   '] for every label *)
Fixpoint field_items (othercols labels : list string) (r : row) : result (list string) :=
  match labels with
  | [] => Ok []
  | l :: labels' =>
      let! c := value othercols l r in
      let! rest := field_items othercols labels' r in
      Ok ((l +:+ ": " +:+ str_cell c +:+ "   ") :: rest)
  end.

(** Lines 128-137: what iteration [i] of the caption loop appends. *)
Definition entry (othercols : list string) (videoStartDateTime : Z)
    (vdata : list row) (i : nat) : result (list string) :=
  let elapsed := map (fun r => Datetime r - videoStartDateTime) vdata in
  let! r := index vdata i in
  let! r' := index vdata (i + 1) in
  let! std := field_items othercols stdfields r in
  let! oth := field_items othercols othercols r in
  Ok ([str_int (Z.of_nat i + 1) +:+ nl;
       elapsedstr elapsed (Datetime r - videoStartDateTime) +:+ " --> "
       +:+ elapsedstr elapsed (Datetime r' - videoStartDateTime) +:+ nl]
      ++ std ++ [nl] ++ oth ++ [nl +:+ nl]).

(** Sequencing of the loop body over the indices. *)
Fixpoint collect {A B} (f : A -> result B) (xs : list A) : result (list B) :=
  match xs with
  | [] => Ok []
  | x :: xs' =>
      let! y := f x in
      let! ys := collect f xs' in
      Ok (y :: ys)
  end.

(** Lines 127-137: one block of strings for every index of
    [vdata.iloc[:-1]]. *)
Definition entries (othercols : list string) (videoStartDateTime : Z)
    (vdata : list row) : result (list (list string)) :=
  collect (entry othercols videoStartDateTime vdata) (seq 0 (length vdata - 1)).

Variable e : env.

(** Line 113: [list(set(newnames) - set(...))] *)
Definition othercols : list string := set_iter e othercols_set.

(** Lines 80-143: the body of the loop over the clips. *)
Definition process_video (data : list row) (video : string) : M event unit :=
  do! (tripid, divename, videostart) := lift (parse_filename video) in
  do! videoStartDateTime := lift (to_datetime videostart fmt_clip) in
  let durcall := "ffprobe -v error -show_entries format=duration "
                 +:+ videopath e +:+ "/" +:+ video in
  do! dur := lift (float_of_string (keep_digits_dots (ffprobe e durcall))) in
  do! videoEndDateTime := lift (ts_add videoStartDateTime (int_succ_decimal dur)) in
  let vdata := select data divename videoStartDateTime videoEndDateTime in
  do! blocks := lift (entries othercols videoStartDateTime vdata) in
  do! stem := lift (index (split "." video) 0) in
  let sfile := videopath e +:+ "/" +:+ stem +:+ ".srt" in
  emit (WriteFile sfile (concat blocks)).

(** The whole script *)
Definition main : M event unit :=
  do! data := lift (load (csv e)) in
  for_each (videofiles e) (process_video data).

End Script.

Arguments CDatetime {F} t.
Arguments CTime {F} s.
Arguments CStr {F} s.
Arguments CInt {F} n.
Arguments CFloat {F} x.
Arguments CNaN {F}.
Arguments Row {F} _ _ _ _.
Arguments Datetime {F} r.
Arguments Time {F} r.
Arguments Dive_Name {F} r.
Arguments sensors {F} r.
Arguments Env {F} _ _ _ _ _.
Arguments videopath {F} e.
Arguments csv {F} e.
Arguments videofiles {F} e.
Arguments ffprobe {F} e.
Arguments set_iter {F} e.
Arguments select {F} data divename videoStartDateTime videoEndDateTime.
Arguments cells {F} r.
Arguments othercols {F} e.
Arguments round_cell {F} round_float decimals c.
Arguments value {F} round_float othercols label r.
Arguments str_cell {F} str_float c.
Arguments field_items {F} round_float str_float othercols labels r.
Arguments entry {F} round_float str_float timedelta_str othercols videoStartDateTime vdata i.
Arguments entries {F} round_float str_float timedelta_str othercols videoStartDateTime vdata.
Arguments load {F} rows.
Arguments process_video {F} round_float str_float timedelta_str e data video.
Arguments main {F} round_float str_float timedelta_str e.

End GenerateSubtitles.

(** ** Notions used to state the properties *)

(** The part of a field before its first dot: [p.split('.')[0]]. *)
Definition stem (p : string) : string := hd "" (split "." p).




(** [d.total_seconds()]: the whole duration of a timedelta, in seconds. *)
Definition total_seconds (d : timedelta) : Z := days d * 86400 + seconds d.

(** The clip boundaries among the events of a run, in the order emitted. *)
Fixpoint boundaries (out : list ClipVideos.event) : list ClipVideos.boundary :=
  match out with
  | [] => []
  | ClipVideos.Call b :: out' => b :: boundaries out'
  | ClipVideos.Print _ :: out' => boundaries out'
  end.

(** The offsets of the clip boundaries of a run, in seconds from the start
    of the video. *)
Definition offsets (out : list ClipVideos.event) : list Z :=
  map (fun b => total_seconds (ClipVideos.offset b)) (boundaries out).

(** [⌈a / b⌉] *)
Definition ceil_div (a b : Z) : Z := (a + b - 1) / b.

(** The exact value of a decimal. *)
Definition dec_Q (d : decimal) : Q := Qmake (mant d) (Z.to_pos (10 ^ Z.of_nat (scale d))).

(** A telemetry row of the dive [divename] whose timestamp [t] satisfies
    [clipStart <= t <= clipStart + dur + 1], both bounds included; [dur] is
    the probed duration of the clip, in seconds. *)
Definition in_window {F} (divename : string) (clipStart : Z) (dur : decimal)
    (r : GenerateSubtitles.row F) : Prop :=
  GenerateSubtitles.Dive_Name r = divename
  /\ (inject_Z clipStart <= inject_Z (GenerateSubtitles.Datetime r))%Q
  /\ (inject_Z (GenerateSubtitles.Datetime r) <= inject_Z clipStart + dec_Q dur + 1)%Q.

#[global] Instance Qle_decision (x y : Q) : Decision (x <= y)%Q.
Proof.
  destruct (Qlt_le_dec y x) as [H|H]; [right|left]; [|done].
  by apply Qlt_not_le.
Defined.

#[global] Instance in_window_decision {F} divename clipStart dur (r : GenerateSubtitles.row F) :
  Decision (in_window divename clipStart dur r).
Proof. unfold in_window. apply _. Defined.

(** The interpreter of a run iterates over the elements of a set, in some
    order. *)
Definition iterates {F} (e : GenerateSubtitles.env F) : Prop :=
  forall X : gset string, GenerateSubtitles.set_iter e X ≡ₚ elements X.


(** Two caption blocks that differ at most in the order of the items of
    their last line, the fields that are not standard fields. *)
Definition block_equiv (b1 b2 : list string) : Prop :=
  exists head o1 o2,
    b1 = head ++ o1 ++ [GenerateSubtitles.nl +:+ GenerateSubtitles.nl]
    /\ b2 = head ++ o2 ++ [GenerateSubtitles.nl +:+ GenerateSubtitles.nl]
    /\ o1 ≡ₚ o2.


(** The cell a field item shows, and the item: [label: value] and three
    spaces. *)
Definition cell_at {F} (round_float : Z -> F -> F) (othercols : list string)
    (label : string) (r : GenerateSubtitles.row F) : GenerateSubtitles.cell F :=
  match GenerateSubtitles.value round_float othercols label r with
  | Ok c => c
  | _ => GenerateSubtitles.CNaN
  end.

Definition item {F} (round_float : Z -> F -> F) (str_float : F -> string)
    (othercols : list string) (r : GenerateSubtitles.row F) (label : string) : string :=
  label +:+ ": "
  +:+ GenerateSubtitles.str_cell str_float (cell_at round_float othercols label r)
  +:+ "   ".

(** The index line, the time range line and the line of the standard
    fields of the block for row [i], between the rows [r] and [r']. *)
Definition block_head {F} (round_float : Z -> F -> F) (str_float : F -> string)
    (timedelta_str : list Z -> Z -> string) (othercols : list string)
    (videoStartDateTime : Z) (vdata : list (GenerateSubtitles.row F)) (i : nat)
    (r r' : GenerateSubtitles.row F) : list string :=
  let elapsed := map (fun r => GenerateSubtitles.Datetime r - videoStartDateTime) vdata in
  [str_int (Z.of_nat i + 1) +:+ GenerateSubtitles.nl;
   GenerateSubtitles.elapsedstr timedelta_str elapsed
     (GenerateSubtitles.Datetime r - videoStartDateTime) +:+ " --> "
   +:+ GenerateSubtitles.elapsedstr timedelta_str elapsed
         (GenerateSubtitles.Datetime r' - videoStartDateTime) +:+ GenerateSubtitles.nl]
  ++ map (item round_float str_float othercols r) GenerateSubtitles.stdfields
  ++ [GenerateSubtitles.nl].

(** The block of index [i], when the rows [i] and [i + 1] exist. *)
Definition block_at {F} (round_float : Z -> F -> F) (str_float : F -> string)
    (timedelta_str : list Z -> Z -> string) (oc : list string) (clipStart : Z)
    (vdata : list (GenerateSubtitles.row F)) (i : nat) : list string :=
  match vdata !! i, vdata !! (i + 1)%nat with
  | Some r, Some r' =>
      block_head round_float str_float timedelta_str oc clipStart vdata i r r'
      ++ map (item round_float str_float oc r) oc
      ++ [GenerateSubtitles.nl +:+ GenerateSubtitles.nl]
  | _, _ => []
  end.


(** ** Inputs used as examples *)

Module Examples.

Definition probe_output (seconds : string) : string :=
  "[FORMAT]" +:+ GenerateSubtitles.nl +:+ "duration=" +:+ seconds
  +:+ GenerateSubtitles.nl +:+ "[/FORMAT]" +:+ GenerateSubtitles.nl.

Definition header : list string := ["Dive_Name"; "Start_UTC"; "End_UTC"].

(** The worked example: transect 10:00:00-10:20:00, ten-minute clips, a
    video that starts at 09:50:00 and lasts 1800 s. *)
Definition worked : ClipVideos.env :=
  ClipVideos.Env "10" "Videos"
    [header; ["D01"; "2022-07-01 10:00:00"; "2022-07-01 10:20:00"]]
    1 2 3
    ["TR1_D01_20220701_095000.mp4"]
    (fun _ => probe_output "1800.000000").

(** A transect that ends on the day after the video starts. *)
Definition overnight : ClipVideos.env :=
  ClipVideos.Env "10" "Videos"
    [header; ["D01"; "2022-07-01 10:00:00"; "2022-07-02 10:20:00"]]
    1 2 3
    ["TR1_D01_20220701_095000.mp4"]
    (fun _ => probe_output "88300.000000").

(** A video that starts ten seconds before the transect, inside the
    thirty-second buffer. *)
Definition late_start : ClipVideos.env :=
  ClipVideos.Env "10" "Videos"
    [header; ["D01"; "2022-07-01 10:00:00"; "2022-07-01 10:20:00"]]
    1 2 3
    ["TR1_D01_20220701_095950.mp4"]
    (fun _ => probe_output "1300.000000").

(** A video that is exactly the buffered window of a transect of 24 h 20
    min: it starts at the buffered start and lasts 87660 s. *)
Definition whole_window : ClipVideos.env :=
  ClipVideos.Env "10" "Videos"
    [header; ["D01"; "2022-07-01 10:00:30"; "2022-07-02 10:20:30"]]
    1 2 3
    ["TR1_D01_20220701_100000.mp4"]
    (fun _ => probe_output "87660.000000").

(** Two videos, the first of a dive that the dive log does not list. *)
Definition missing_dive : ClipVideos.env :=
  ClipVideos.Env "10" "Videos"
    [header; ["D01"; "2022-07-01 10:00:00"; "2022-07-01 10:20:00"]]
    1 2 3
    ["TR1_D00_20220701_080000.mp4"; "TR1_D01_20220701_095000.mp4"]
    (fun _ => probe_output "1800.000000").

(** Two videos, the first of which the probe cannot read: it prints nothing
    on its standard output. *)
Definition bad_probe : ClipVideos.env :=
  ClipVideos.Env "10" "Videos"
    [header; ["D01"; "2022-07-01 10:00:00"; "2022-07-01 10:20:00"]]
    1 2 3
    ["TR1_D01_20220701_090000.mp4"; "TR1_D01_20220701_095000.mp4"]
    (fun cmd => if String.eqb cmd
                     "ffprobe -v error -show_entries format=duration Videos/TR1_D01_20220701_090000.mp4"
                then "" else probe_output "1800.000000").

(** Telemetry with integer readings only: no floating-point cell. *)
Definition no_round (_ : Z) (x : Empty_set) : Empty_set := x.
Definition no_str (x : Empty_set) : string := match x with end.

(** [str] of a pandas Timedelta: ["D days HH:MM:SS"]. *)
Definition td_long (_ : list Z) (x : Z) : string :=
  str_int (x / 86400) +:+ " days " +:+ pad2 (x mod 86400 / 3600) +:+ ":"
  +:+ pad2 (x mod 3600 / 60) +:+ ":" +:+ pad2 (x mod 60).

Definition telemetry : list (string * string * list (GenerateSubtitles.cell Empty_set)) :=
  [("2022-07-01 10:00:00", "D01",
      [GenerateSubtitles.CInt (-123); GenerateSubtitles.CInt 48;
       GenerateSubtitles.CInt 12; GenerateSubtitles.CInt 1; GenerateSubtitles.CInt 2]);
   ("2022-07-01 10:00:05", "D01",
      [GenerateSubtitles.CInt (-123); GenerateSubtitles.CInt 48;
       GenerateSubtitles.CInt 13; GenerateSubtitles.CInt 1; GenerateSubtitles.CInt 2]);
   ("2022-07-01 10:00:10", "D01",
      [GenerateSubtitles.CInt (-123); GenerateSubtitles.CInt 48;
       GenerateSubtitles.CInt 14; GenerateSubtitles.CInt 1; GenerateSubtitles.CInt 2])].



End Examples.

(** ** Further notions *)

(** The value column of the last row whose key column holds [k]. *)
Fixpoint last_row_value (rows : list (list string)) (col1 col2 : Z) (k : string)
    : option string :=
  match rows with
  | [] => None
  | r :: rows' =>
      match last_row_value rows' col1 col2 k with
      | Some v => Some v
      | None =>
          match index_z r (col1 - 1), index_z r (col2 - 1) with
          | Ok k', Ok v => if String.eqb k' k then Some v else None
          | _, _ => None
          end
      end
  end.

(** The same surroundings with another duration probe. *)
Definition set_ffprobe (e : ClipVideos.env) (probe : string -> string) : ClipVideos.env :=
  ClipVideos.Env (ClipVideos.clipsize e) (ClipVideos.videopath e) (ClipVideos.divelog e)
    (ClipVideos.dive e) (ClipVideos.start e) (ClipVideos.end_ e)
    (ClipVideos.videofiles e) probe.

(** Two runs of the clip script that cut the same clips and end the same
    way; they may differ in what they print. *)
Definition same_clips (m1 m2 : M ClipVideos.event unit) : Prop :=
  boundaries (fst m1) = boundaries (fst m2) /\ snd m1 = snd m2.

(** The month and the day of the month of day [n] (counted from 0) of a
    year, as the tail of [ord2ymd] finds them. *)
Definition month_day (n : Z) (leapyear : bool) : Z * Z :=
  let m := Z.shiftr (n + 50) 5 in
  let preceding :=
    nth (Z.to_nat (m - 1)) DAYS_BEFORE_MONTH 0
    + (if (2 <? m) && leapyear then 1 else 0) in
  if n <? preceding then
    let m' := m - 1 in
    let preceding' :=
      preceding
      - (nth (Z.to_nat (m' - 1)) DAYS_IN_MONTH 0
         + (if (m' =? 2) && leapyear then 1 else 0)) in
    (m', n - preceding' + 1)
  else (m, n - preceding + 1).

(** The month and day found for day [n] are those of the calendar. *)
Definition month_day_ok (leapyear : bool) (n : Z) : bool :=
  let '(m, d) := month_day n leapyear in
  (1 <=? m) && (m <=? 12) && (1 <=? d)
  && (d <=? (if (m =? 2) && leapyear then 29 else nth (Z.to_nat (m - 1)) DAYS_IN_MONTH 0))
  && (nth (Z.to_nat (m - 1)) DAYS_BEFORE_MONTH 0
      + (if (2 <? m) && leapyear then 1 else 0) + d =? n + 1).

(** The file name of the clip that starts at [st]: the last component of
    [clipname]. *)
Definition clip_basename (tripid divename : string) (st : datetime) : string :=
  tripid +:+ "_" +:+ divename +:+ "_" +:+ strftime_clip st +:+ ".mp4".

(** ** Further inputs used as examples *)

Module MoreExamples.

(** The two dictionaries of the worked example. *)
Definition worked_starts : gmap string string :=
  delete "Dive_Name" (<["D01" := "2022-07-01 10:00:00"]> (<["Dive_Name" := "Start_UTC"]> ∅)).

Definition worked_ends : gmap string string :=
  delete "Dive_Name" (<["D01" := "2022-07-01 10:20:00"]> (<["Dive_Name" := "End_UTC"]> ∅)).

(** The worked example with an empty line in the dive log. *)
Definition blank_line : ClipVideos.env :=
  ClipVideos.Env "10" "Videos"
    [Examples.header; []; ["D01"; "2022-07-01 10:00:00"; "2022-07-01 10:20:00"]]
    1 2 3
    ["TR1_D01_20220701_095000.mp4"]
    (fun _ => Examples.probe_output "1800.000000").

(** The worked example with other clip sizes. *)
Definition with_clipsize (size : string) : ClipVideos.env :=
  ClipVideos.Env size "Videos"
    [Examples.header; ["D01"; "2022-07-01 10:00:00"; "2022-07-01 10:20:00"]]
    1 2 3
    ["TR1_D01_20220701_095000.mp4"]
    (fun _ => Examples.probe_output "1800.000000").


(** A clip folder that holds the caption file of an earlier run, for which
    the probe prints nothing. *)
Definition rerun : GenerateSubtitles.env Empty_set :=
  GenerateSubtitles.Env "Video_clips" Examples.telemetry
    ["TR1_D01_20220701_100000.mp4"; "TR1_D01_20220701_100000.srt";
     "TR1_D01_20220701_101000.mp4"]
    (fun cmd =>
       if String.eqb cmd
            "ffprobe -v error -show_entries format=duration Video_clips/TR1_D01_20220701_100000.srt"
       then "" else Examples.probe_output "11.000000")
    elements.

(** A clip of a dive that the telemetry table does not list. *)
Definition other_dive : GenerateSubtitles.env Empty_set :=
  GenerateSubtitles.Env "Video_clips" Examples.telemetry
    ["TR1_D02_20220701_100000.mp4"]
    (fun _ => Examples.probe_output "11.000000") elements.

(** The rows of [Examples.telemetry] after the set-up. *)
Definition loaded : list (GenerateSubtitles.row Empty_set) :=
  [GenerateSubtitles.Row 1656669600 36000 "D01"
     [GenerateSubtitles.CInt (-123); GenerateSubtitles.CInt 48;
      GenerateSubtitles.CInt 12; GenerateSubtitles.CInt 1; GenerateSubtitles.CInt 2];
   GenerateSubtitles.Row 1656669605 36005 "D01"
     [GenerateSubtitles.CInt (-123); GenerateSubtitles.CInt 48;
      GenerateSubtitles.CInt 13; GenerateSubtitles.CInt 1; GenerateSubtitles.CInt 2];
   GenerateSubtitles.Row 1656669610 36010 "D01"
     [GenerateSubtitles.CInt (-123); GenerateSubtitles.CInt 48;
      GenerateSubtitles.CInt 14; GenerateSubtitles.CInt 1; GenerateSubtitles.CInt 2]].

End MoreExamples.

(** * Properties *)

(** ** Splitting and joining *)

Section SplitFacts.

Variable sep : ascii.

Lemma split_nonempty (s : string) : split sep s <> [].
Proof.
  destruct s as [|c s]; simpl; [discriminate|].
  destruct (Ascii.eqb c sep); [discriminate|].
  destruct (split sep s); discriminate.
Qed.

Lemma index_split_0 (s : string) : exists w, index (split sep s) 0 = Ok w.
Proof.
  pose proof (split_nonempty s) as H.
  destruct (split sep s) as [|w ws]; [congruence|]. by exists w.
Qed.

(** No field of a split holds the separator. *)
Lemma split_fields_clean (s : string) :
  Forall (fun w => has_char sep w = false) (split sep s).
Proof.
  induction s as [|c s IH]; simpl.
  - by repeat constructor.
  - destruct (Ascii.eqb c sep) eqn:E.
    + by constructor.
    + destruct (split sep s) as [|w ws]; simpl.
      * repeat constructor. simpl. by rewrite E.
      * inversion IH; subst. constructor; [|done]. simpl. by rewrite E.
Qed.

Lemma split_clean (w : string) : has_char sep w = false -> split sep w = [w].
Proof.
  induction w as [|c w IH]; simpl; [done|].
  intros H. apply orb_false_elim in H as [E H].
  rewrite E, (IH H). done.
Qed.

Lemma split_app_sep (w s : string) :
  has_char sep w = false ->
  split sep (w +:+ String sep s) = w :: split sep s.
Proof.
  induction w as [|c w IH]; simpl.
  - intros _. by rewrite Ascii.eqb_refl.
  - intros H. apply orb_false_elim in H as [E H].
    rewrite E, (IH H). done.
Qed.

(** Splitting undoes joining when no field holds the separator. *)
Lemma split_join (parts : list string) :
  parts <> [] ->
  Forall (fun w => has_char sep w = false) parts ->
  split sep (join sep parts) = parts.
Proof.
  induction parts as [|p ps IH]; [done|].
  intros _ H. inversion H as [|? ? Hp Hps]; subst.
  destruct ps as [|q qs].
  - simpl. by apply split_clean.
  - change (join sep (p :: q :: qs)) with (p +:+ String sep (join sep (q :: qs))).
    rewrite split_app_sep by done. f_equal. by apply IH.
Qed.

(** Joining undoes splitting. *)
Lemma join_split (s : string) : join sep (split sep s) = s.
Proof.
  induction s as [|c s IH]; simpl; [done|].
  destruct (Ascii.eqb c sep) eqn:E.
  - apply Ascii.eqb_eq in E. subst c.
    pose proof (split_nonempty s) as Hne.
    destruct (split sep s) as [|w ws]; [congruence|].
    change (join sep ("" :: w :: ws)) with ("" +:+ String sep (join sep (w :: ws))).
    simpl in *. by rewrite IH.
  - pose proof (split_nonempty s) as Hne.
    destruct (split sep s) as [|w ws]; [congruence|].
    destruct ws as [|v vs]; simpl in *; by rewrite <- IH.
Qed.

End SplitFacts.

(** ** File names *)

Section Filenames.

(** C8.  A file name that splits on the underscore into fewer than four
    fields makes the parser of both scripts fail with [IndexError], the
    exception of the field access [parts[1]], [parts[2]] or [parts[3]]
    (the malformed-filename error of the two scripts): parsing does not
    succeed and nothing else is raised or emitted before it. *)
Theorem short_filename_fails (video : string) :
  (length (split "_" video) < 4)%nat ->
  ClipVideos.parse_filename video = Raise IndexError
  /\ GenerateSubtitles.parse_filename video = Raise IndexError
  /\ (forall e fuel starts ends,
        ClipVideos.process_video e fuel starts ends video = ([], Raise IndexError))
  /\ (forall F round_float str_float timedelta_str (e : GenerateSubtitles.env F) data,
        GenerateSubtitles.process_video round_float str_float timedelta_str e data video
        = ([], Raise IndexError)).
Proof.
  intros Hlen.
  assert (H1 : ClipVideos.parse_filename video = Raise IndexError).
  { unfold ClipVideos.parse_filename.
    destruct (split "_" video) as [|a [|b [|c [|d l]]]]; simpl in *; try done; lia. }
  assert (H2 : GenerateSubtitles.parse_filename video = Raise IndexError).
  { unfold GenerateSubtitles.parse_filename.
    destruct (split "_" video) as [|a [|b [|c [|d l]]]]; simpl in *; try done; lia. }
  repeat split; try done.
  - intros. unfold ClipVideos.process_video. by rewrite H1.
  - intros. unfold GenerateSubtitles.process_video. by rewrite H2.
Qed.

Lemma short_filename_fails_witness :
  ClipVideos.parse_filename "TR1_D01_20220701.mp4" = Raise IndexError.
Proof.
  apply (short_filename_fails "TR1_D01_20220701.mp4"). simpl. lia.
Defined.

Lemma index_stem (p : string) : index (split "." p) 0 = Ok (stem p).
Proof.
  unfold stem. pose proof (split_nonempty "." p) as H.
  destruct (split "." p); [congruence|done].
Qed.

(** The parsers read the first four fields only. *)
Lemma parse_filename_fields (video p0 p1 p2 p3 : string) (extra : list string) :
  split "_" video = p0 :: p1 :: p2 :: p3 :: extra ->
  ClipVideos.parse_filename video = Ok (p0, p1, p2 +:+ " " +:+ stem p3)
  /\ GenerateSubtitles.parse_filename video = Ok (p0, p1, p2 +:+ "_" +:+ stem p3).
Proof.
  intros H. unfold ClipVideos.parse_filename, GenerateSubtitles.parse_filename.
  rewrite H. simpl. rewrite index_stem. done.
Qed.

(** C10.  A file name with more than four underscore-separated segments is
    not rejected: both parsers return the trip, the dive and the timestamp
    text taken from the first four segments, the same result as for the
    file name made of these four segments alone. *)
Theorem long_filename_accepted (video p0 p1 p2 p3 : string) (extra : list string) :
  split "_" video = p0 :: p1 :: p2 :: p3 :: extra ->
  extra <> [] ->
  ClipVideos.parse_filename video = Ok (p0, p1, p2 +:+ " " +:+ stem p3)
  /\ GenerateSubtitles.parse_filename video = Ok (p0, p1, p2 +:+ "_" +:+ stem p3)
  /\ ClipVideos.parse_filename video
     = ClipVideos.parse_filename (join "_" [p0; p1; p2; p3])
  /\ GenerateSubtitles.parse_filename video
     = GenerateSubtitles.parse_filename (join "_" [p0; p1; p2; p3]).
Proof.
  intros H _.
  destruct (parse_filename_fields _ _ _ _ _ _ H) as [H1 H2].
  assert (Hs : split "_" (join "_" [p0; p1; p2; p3]) = [p0; p1; p2; p3]).
  { apply split_join; [done|].
    pose proof (split_fields_clean "_" video) as Hc. rewrite H in Hc.
    repeat match goal with
           | Hc : Forall _ (_ :: _) |- _ => inversion Hc; subst; clear Hc
           end.
    repeat constructor; done. }
  destruct (parse_filename_fields _ _ _ _ _ _ Hs) as [H3 H4].
  rewrite H1, H2, H3, H4. done.
Qed.

Lemma long_filename_accepted_witness :
  ClipVideos.parse_filename "TR1_D01_20220701_095000_part2.mp4"
  = Ok ("TR1", "D01", "20220701 095000").
Proof.
  refine (proj1 (long_filename_accepted "TR1_D01_20220701_095000_part2.mp4"
                   "TR1" "D01" "20220701" "095000" ["part2.mp4"] _ _)).
  - reflexivity.
  - discriminate.
Defined.

End Filenames.

(** ** Timestamps: parsing and formatting *)

Lemma digit_range (c : ascii) (x : Z) : digit c = Some x -> 0 <= x <= 9.
Proof.
  unfold digit. intros H.
  destruct (_ && _) eqn:E; [|done].
  apply andb_true_iff in E as [E1 E2]. inversion H. lia.
Qed.

Lemma digit_char_digit (c : ascii) (x : Z) : digit c = Some x -> digit_char x = c.
Proof.
  unfold digit, digit_char. intros H.
  destruct (_ && _) eqn:E; [|done].
  apply andb_true_iff in E as [E1 E2]. inversion H.
  replace (48 + (Z.of_nat (nat_of_ascii c) - 48)) with (Z.of_nat (nat_of_ascii c)) by lia.
  rewrite Nat2Z.id. apply ascii_nat_embedding.
Qed.


(** [l] starts with [x]: [x] is the candidate the matcher tries first. *)
Definition first_is {A} (l : list A) (x : A) : Prop := exists tl, l = x :: tl.

Lemma first_is_map {A B} (f : A -> B) l x : first_is l x -> first_is (map f l) (f x).
Proof. intros [tl ->]. by eexists. Qed.

Lemma first_is_app {A} (l l' : list A) x : first_is l x -> first_is (l ++ l') x.
Proof. intros [tl ->]. by eexists. Qed.

Lemma match_format_cons d ds dt s c y :
  first_is (match_directive d dt s) c ->
  first_is (match_format ds (fst c) (snd c)) y ->
  first_is (match_format (d :: ds) dt s) y.
Proof.
  intros [tl H] [tl' H']. simpl. rewrite H. simpl. rewrite H'. by eexists.
Qed.

Ltac bool_cases :=
  repeat match goal with
         | |- context [Z.eqb ?a ?b] => destruct (Z.eqb_spec a b)
         | |- context [Z.leb ?a ?b] => destruct (Z.leb_spec a b)
         | |- context [Z.ltb ?a ?b] => destruct (Z.ltb_spec a b)
         end.

Ltac first_alt :=
  unfold re_m, re_d, re_H, re_M, re_S, two, one, any_digit;
  match goal with
  | Ha : digit ?a = Some _, Hb : digit ?b = Some _ |- _ => rewrite Ha, Hb
  end;
  bool_cases; simpl; try lia; by eexists.

Section Fields.

Variables (a b : ascii) (x y : Z) (r : string).
Hypothesis Ha : digit a = Some x.
Hypothesis Hb : digit b = Some y.

Lemma re_m_two : 1 <= 10 * x + y <= 12 -> first_is (re_m (String a (String b r))) (10 * x + y, r).
Proof. pose proof (digit_range _ _ Ha). pose proof (digit_range _ _ Hb). intros. first_alt. Qed.

Lemma re_d_two : 1 <= 10 * x + y <= 31 -> first_is (re_d (String a (String b r))) (10 * x + y, r).
Proof. pose proof (digit_range _ _ Ha). pose proof (digit_range _ _ Hb). intros. first_alt. Qed.

Lemma re_H_two : 0 <= 10 * x + y <= 23 -> first_is (re_H (String a (String b r))) (10 * x + y, r).
Proof. pose proof (digit_range _ _ Ha). pose proof (digit_range _ _ Hb). intros. first_alt. Qed.

Lemma re_M_two : 0 <= 10 * x + y <= 59 -> first_is (re_M (String a (String b r))) (10 * x + y, r).
Proof. pose proof (digit_range _ _ Ha). pose proof (digit_range _ _ Hb). intros. first_alt. Qed.

Lemma re_S_two : 0 <= 10 * x + y <= 59 -> first_is (re_S (String a (String b r))) (10 * x + y, r).
Proof. pose proof (digit_range _ _ Ha). pose proof (digit_range _ _ Hb). intros. first_alt. Qed.

End Fields.

Lemma re_Y_four (a b c d : ascii) (w x y z : Z) (r : string) :
  digit a = Some w -> digit b = Some x -> digit c = Some y -> digit d = Some z ->
  re_Y (String a (String b (String c (String d r))))
  = [(1000 * w + 100 * x + 10 * y + z, r)].
Proof. intros Ha Hb Hc Hd. unfold re_Y. by rewrite Ha, Hb, Hc, Hd. Qed.


(** *** Decimal text of small numbers *)

Lemma str_int_1 (n : Z) : 0 <= n < 10 -> str_int n = String (digit_char n) "".
Proof.
  intros H. unfold str_int.
  destruct (Z.ltb_spec n 0); [lia|].
  replace (Z.to_nat (Z.log2 n) + 1)%nat with (S (Z.to_nat (Z.log2 n))) by lia.
  cbn [digits_of]. destruct (Z.ltb_spec n 10); [|lia].
  by rewrite Z.mod_small by lia.
Qed.

Lemma str_int_2 (n : Z) :
  10 <= n < 100 ->
  str_int n = String (digit_char (n / 10)) (String (digit_char (n mod 10)) "").
Proof.
  intros H. unfold str_int.
  destruct (Z.ltb_spec n 0); [lia|].
  assert (3 <= Z.log2 n) by (change 3 with (Z.log2 8); apply Z.log2_le_mono; lia).
  replace (Z.to_nat (Z.log2 n) + 1)%nat
    with (S (S (Z.to_nat (Z.log2 n) - 1))) by lia.
  cbn [digits_of]. destruct (Z.ltb_spec n 10); [lia|].
  assert (0 <= n / 10 < 10) by (split; [apply Z.div_pos|apply Z.div_lt_upper_bound]; lia).
  destruct (Z.ltb_spec (n / 10) 10); [|lia].
  by rewrite (Z.mod_small (n / 10)) by lia.
Qed.

Lemma str_int_4 (n : Z) :
  1000 <= n < 10000 ->
  str_int n = String (digit_char (n / 1000)) (String (digit_char (n / 100 mod 10))
                (String (digit_char (n / 10 mod 10)) (String (digit_char (n mod 10)) ""))).
Proof.
  intros H. unfold str_int.
  destruct (Z.ltb_spec n 0); [lia|].
  assert (9 <= Z.log2 n) by (change 9 with (Z.log2 512); apply Z.log2_le_mono; lia).
  replace (Z.to_nat (Z.log2 n) + 1)%nat
    with (S (S (S (S (Z.to_nat (Z.log2 n) - 3))))) by lia.
  cbn [digits_of]. destruct (Z.ltb_spec n 10); [lia|].
  assert (100 <= n / 10 < 1000)
    by (split; [apply Z.div_le_lower_bound|apply Z.div_lt_upper_bound]; lia).
  destruct (Z.ltb_spec (n / 10) 10); [lia|].
  rewrite !Z.div_div by lia. change (10 * 10) with 100. change (100 * 10) with 1000.
  assert (10 <= n / 100 < 100)
    by (split; [apply Z.div_le_lower_bound|apply Z.div_lt_upper_bound]; lia).
  destruct (Z.ltb_spec (n / 100) 10); [lia|].
  assert (1 <= n / 1000 < 10)
    by (split; [apply Z.div_le_lower_bound|apply Z.div_lt_upper_bound]; lia).
  destruct (Z.ltb_spec (n / 1000) 10); [|lia].
  by rewrite (Z.mod_small (n / 1000)) by lia.
Qed.

Lemma pad2_digits (a b : ascii) (x y : Z) :
  digit a = Some x -> digit b = Some y ->
  pad2 (10 * x + y) = String a (String b "").
Proof.
  intros Ha Hb.
  pose proof (digit_range _ _ Ha). pose proof (digit_range _ _ Hb).
  unfold pad2. destruct (Z.eq_dec x 0) as [->|Hx].
  - rewrite <- (digit_char_digit _ _ Ha), <- (digit_char_digit _ _ Hb).
    replace (10 * 0 + y) with y by lia.
    destruct (Z.leb_spec 0 y); [|lia]. destruct (Z.ltb_spec y 10); [|lia].
    simpl. by rewrite str_int_1 by lia.
  - destruct (Z.ltb_spec (10 * x + y) 10); [lia|].
    rewrite andb_false_r, str_int_2 by lia.
    replace ((10 * x + y) / 10) with x by (apply Z.div_unique with y; lia).
    replace ((10 * x + y) mod 10) with y by (apply Z.mod_unique with x; lia).
    by rewrite (digit_char_digit _ _ Ha), (digit_char_digit _ _ Hb).
Qed.



Lemma valid_datetime_bounds (dt : datetime) :
  valid_datetime dt = true ->
  1 <= year dt <= 9999 /\ 1 <= month dt <= 12 /\ 1 <= day dt <= 31
  /\ 0 <= hour dt <= 23 /\ 0 <= minute dt <= 59 /\ 0 <= second dt <= 59.
Proof.
  unfold valid_datetime. rewrite !andb_true_iff, !Z.leb_le.
  intros H. repeat split; try lia.
  assert (days_in_month (year dt) (month dt) <= 31); [|lia].
  unfold days_in_month. destruct (_ && _); [lia|].
  assert (Hm : 1 <= month dt <= 12) by lia.
  assert (Hc : month dt = 1 \/ month dt = 2 \/ month dt = 3 \/ month dt = 4
               \/ month dt = 5 \/ month dt = 6 \/ month dt = 7 \/ month dt = 8
               \/ month dt = 9 \/ month dt = 10 \/ month dt = 11 \/ month dt = 12) by lia.
  destruct Hc as [-> | [-> | [-> | [-> | [-> | [-> | [-> | [-> | [-> | [-> | [-> | ->]]]]]]]]]]];
    simpl; lia.
Qed.

Ltac match_step lem :=
  eapply match_format_cons;
  [ cbn [match_directive]; unfold with_field; apply first_is_map;
    eapply lem; [eassumption..|lia]
  | cbn [fst snd set_year set_month set_day set_hour set_minute set_second
         year month day hour minute second] ].



(** ** The clip loop *)

Lemma bind_emit {E B} (ev : E) (k : unit -> M E B) :
  bind (emit ev) k = (ev :: fst (k tt), snd (k tt)).
Proof. unfold bind, emit. by destruct (k tt). Qed.

Lemma bind_lift {E A B} (r : result A) (k : A -> M E B) :
  bind (lift r) k
  = match r with
    | Ok a => k a
    | Raise x => ([], Raise x)
    | OutOfFuel => ([], OutOfFuel)
    end.
Proof. unfold bind, lift. destruct r; try done. by destruct (k a). Qed.

Lemma bind_ret {E A B} (a : A) (k : A -> M E B) : bind (ret a) k = k a.
Proof. unfold bind, ret. by destruct (k a). Qed.

Lemma snd_bind_fuel {E A B} (m : M E A) (k : A -> M E B) :
  snd (bind m k) <> OutOfFuel ->
  snd m <> OutOfFuel
  /\ forall a, snd m = Ok a -> snd (k a) <> OutOfFuel.
Proof.
  destruct m as [out [a| |]]; simpl; try done.
  destruct (k a) as [out' r] eqn:Hk. simpl. intros H. split; [done|].
  intros a' [= <-]. by rewrite Hk.
Qed.

Lemma bind_fuel_cong {E A B} (m : M E A) (k k' : A -> M E B) :
  (forall a, snd m = Ok a -> snd (k a) <> OutOfFuel -> k' a = k a) ->
  snd (bind m k) <> OutOfFuel -> bind m k' = bind m k.
Proof.
  intros Hk H. apply snd_bind_fuel in H as [H1 H2].
  destruct m as [out [a| |]]; try done.
  unfold bind. rewrite Hk; [done|done|]. by apply H2.
Qed.

Ltac step_bind :=
  rewrite ?bind_lift, ?bind_emit, ?bind_ret in *; cbv beta in *.

Section Fuel.

Variable e : ClipVideos.env.

(** A run of the clip loop that ended within its step budget ends the same
    way with any larger budget. *)
Lemma clip_loop_fuel (fuel fuel' : nat) video tripid divename vs bound elapsed :
  snd (ClipVideos.clip_loop e fuel video tripid divename vs bound elapsed) <> OutOfFuel ->
  (fuel <= fuel')%nat ->
  ClipVideos.clip_loop e fuel' video tripid divename vs bound elapsed
  = ClipVideos.clip_loop e fuel video tripid divename vs bound elapsed.
Proof.
  revert fuel' elapsed.
  induction fuel as [|fuel IH]; intros fuel' elapsed H Hle; [done|].
  destruct fuel' as [|fuel']; [lia|].
  cbn [ClipVideos.clip_loop] in *.
  destruct (seconds elapsed <? bound); [|done].
  step_bind.
  destruct (dt_add vs elapsed) as [st| |]; try done.
  step_bind.
  destruct (int_of_string (ClipVideos.clipsize e)) as [n| |]; try done.
  step_bind.
  destruct (mk_timedelta 0 (n * 60)) as [step| |]; try done.
  step_bind.
  destruct (td_add elapsed step) as [el'| |]; try done.
  cbn [fst snd] in *. rewrite IH; [done|done|lia].
Qed.

Lemma process_video_fuel (fuel fuel' : nat) starts ends video :
  snd (ClipVideos.process_video e fuel starts ends video) <> OutOfFuel ->
  (fuel <= fuel')%nat ->
  ClipVideos.process_video e fuel' starts ends video
  = ClipVideos.process_video e fuel starts ends video.
Proof.
  unfold ClipVideos.process_video. intros H Hle. revert H.
  apply bind_fuel_cong. intros [[tripid divename] videostart] _.
  do 10 (apply bind_fuel_cong; intros ? _).
  intros H.
  by apply clip_loop_fuel.
Qed.

Lemma for_each_fuel (fuel fuel' : nat) starts ends videos :
  snd (for_each videos (ClipVideos.process_video e fuel starts ends)) <> OutOfFuel ->
  (fuel <= fuel')%nat ->
  for_each videos (ClipVideos.process_video e fuel' starts ends)
  = for_each videos (ClipVideos.process_video e fuel starts ends).
Proof.
  intros H Hle. induction videos as [|v vs IH]; [done|].
  cbn [for_each] in *. apply snd_bind_fuel in H as [H1 H2].
  rewrite (process_video_fuel fuel fuel') by done.
  destruct (ClipVideos.process_video e fuel starts ends v) as [out [[]| |]]; try done.
  unfold bind. rewrite IH; [done|]. by apply (H2 ()).
Qed.

Lemma main_fuel (fuel fuel' : nat) :
  snd (ClipVideos.main e fuel) <> OutOfFuel ->
  (fuel <= fuel')%nat ->
  ClipVideos.main e fuel' = ClipVideos.main e fuel.
Proof.
  unfold ClipVideos.main. intros H Hle.
  rewrite !bind_lift in *.
  destruct (ClipVideos.startsDict e) as [starts| |]; try done.
  rewrite !bind_lift in *.
  destruct (ClipVideos.endsDict e) as [ends| |]; try done.
  by apply for_each_fuel.
Qed.

End Fuel.

Lemma main_fuel_unique (e : ClipVideos.env) (fuel1 fuel2 : nat) :
  snd (ClipVideos.main e fuel1) <> OutOfFuel ->
  snd (ClipVideos.main e fuel2) <> OutOfFuel ->
  ClipVideos.main e fuel1 = ClipVideos.main e fuel2.
Proof.
  intros H1 H2. destruct (Nat.le_ge_cases fuel1 fuel2).
  - symmetry. by apply main_fuel.
  - by apply main_fuel.
Qed.

(** What [.seconds] keeps of a difference of datetimes: the whole duration
    modulo one day. *)
Lemma dt_sub_seconds (a b : datetime) (d : timedelta) :
  dt_sub a b = Ok d ->
  total_seconds d = (toordinal a - toordinal b) * 86400 + (day_seconds a - day_seconds b)
  /\ seconds d = total_seconds d mod 86400.
Proof.
  unfold dt_sub, mk_timedelta. destruct (_ <=? _); [|done].
  intros [= <-]. unfold total_seconds. cbn [days seconds].
  set (D := toordinal a - toordinal b). set (s := day_seconds a - day_seconds b).
  pose proof (Z.div_mod s 86400 ltac:(lia)) as Hs.
  split; [lia|].
  replace ((D + s / 86400) * 86400 + s mod 86400)
    with (s mod 86400 + (D + s / 86400) * 86400) by lia.
  rewrite Z.mod_add by lia. by rewrite Z.mod_mod by lia.
Qed.

(** C3 as stated fails: on the worked example no run that ends emits the
    two boundaries at 570 s and 1170 s only. *)
Lemma worked_example_not_two_clips :
  ~ exists fuel,
      snd (ClipVideos.main Examples.worked fuel) = Ok tt
      /\ offsets (fst (ClipVideos.main Examples.worked fuel)) = [570; 1170].
Proof.
  intros (fuel & Hok & Hoff).
  rewrite (main_fuel_unique Examples.worked fuel 4) in Hoff.
  - vm_compute in Hoff. discriminate.
  - by rewrite Hok.
  - vm_compute. discriminate.
Qed.

(** C3, amended.  On the worked example (transect 10:00:00-10:20:00, clip
    length 10 minutes, video from 09:50:00 lasting 1800 s) the script, after
    warning that the transect ends after the video, cuts exactly three
    clips, at 570 s, 1170 s and 1770 s from the start of the video: 1770 is
    still below the bound 1830. *)
Theorem worked_example_three_clips (fuel : nat) :
  (4 <= fuel)%nat ->
  ClipVideos.main Examples.worked fuel
  = ([ClipVideos.Print "Warning! Transect D01 ends after the video file finishes";
      ClipVideos.Call (ClipVideos.Boundary "TR1_D01_20220701_095000.mp4"
        (Timedelta 0 570) "10" "Video_clips/TR1_D01_20220701_095930.mp4");
      ClipVideos.Call (ClipVideos.Boundary "TR1_D01_20220701_095000.mp4"
        (Timedelta 0 1170) "10" "Video_clips/TR1_D01_20220701_100930.mp4");
      ClipVideos.Call (ClipVideos.Boundary "TR1_D01_20220701_095000.mp4"
        (Timedelta 0 1770) "10" "Video_clips/TR1_D01_20220701_101930.mp4")],
     Ok tt)
  /\ offsets (fst (ClipVideos.main Examples.worked fuel)) = [570; 1170; 1770].
Proof.
  intros H. rewrite (main_fuel Examples.worked 4 fuel); [|vm_compute; discriminate|done].
  split; vm_compute; reflexivity.
Qed.

Lemma worked_example_three_clips_witness :
  offsets (fst (ClipVideos.main Examples.worked 5)) = [570; 1170; 1770].
Proof.
  refine (proj2 (worked_example_three_clips 5 _)). lia.
Defined.

(** C1, evaluated where it fails.  For the video that starts on 2022-07-01
    at 09:50:00 and the transect that ends on 2022-07-02 at 10:20:00, the
    buffered end is 88230 s after the start of the video; the script keeps
    1830 s, the rest modulo one day, and cuts three clips.  For the video
    that starts 20 s after the buffered start of its transect, the running
    offset -20 s is compared as 86380 s and no clip is cut. *)
Theorem elapsed_seconds_wrap :
  dt_sub (Datetime 2022 7 2 10 20 30) (Datetime 2022 7 1 9 50 0) = Ok (Timedelta 1 1830)
  /\ total_seconds (Timedelta 1 1830) = 88230
  /\ ClipVideos.elapsed_end (Datetime 2022 7 2 10 20 30) (Datetime 2022 7 1 9 50 0) = Ok 1830
  /\ (forall k, offsets (fst (ClipVideos.main Examples.overnight (4 + k))) = [570; 1170; 1770]
                /\ snd (ClipVideos.main Examples.overnight (4 + k)) = Ok tt)
  /\ dt_sub (Datetime 2022 7 1 9 59 30) (Datetime 2022 7 1 9 59 50) = Ok (Timedelta (-1) 86380)
  /\ total_seconds (Timedelta (-1) 86380) = -20
  /\ (forall k, ClipVideos.main Examples.late_start (1 + k) = ([], Ok tt)).
Proof.
  repeat split; try (vm_compute; reflexivity).
Qed.

(** C2, evaluated where it fails.  The video starts at the buffered start
    of its transect and lasts as long as the buffered window, 87660 s; with
    clips of 600 s the claim gives 147 boundaries; the script cuts three, at
    0 s, 600 s and 1200 s: the bound 87660 s is kept modulo one day, as
    1260 s. *)
Theorem whole_window_three_clips :
  dt_sub_td (Datetime 2022 7 1 10 0 30) (Timedelta 0 30) = Ok (Datetime 2022 7 1 10 0 0)
  /\ dt_add (Datetime 2022 7 2 10 20 30) (Timedelta 0 30) = Ok (Datetime 2022 7 2 10 21 0)
  /\ dt_sub (Datetime 2022 7 2 10 21 0) (Datetime 2022 7 1 10 0 0) = Ok (Timedelta 1 1260)
  /\ total_seconds (Timedelta 1 1260) = 87660
  /\ ceil_div 87660 600 = 147
  /\ forall k,
       offsets (fst (ClipVideos.main Examples.whole_window (4 + k))) = [0; 600; 1200]
       /\ snd (ClipVideos.main Examples.whole_window (4 + k)) = Ok tt.
Proof.
  repeat split; try (vm_compute; reflexivity).
Qed.

(** ** Errors in one video *)

Lemma mk_timedelta_ends d s : mk_timedelta d s <> OutOfFuel.
Proof. unfold mk_timedelta. by destruct (_ <=? _). Qed.

Lemma strptime_ends s fmt : strptime s fmt <> OutOfFuel.
Proof.
  unfold strptime. destruct (match_format _ _ _) as [|[dt [|? ?]] ?]; try done.
  by destruct (valid_datetime dt).
Qed.

Lemma strptime_opt_ends s fmt : strptime_opt s fmt <> OutOfFuel.
Proof. destruct s; [apply strptime_ends|done]. Qed.

Lemma dt_add_ends a d : dt_add a d <> OutOfFuel.
Proof.
  unfold dt_add. pose proof (mk_timedelta_ends (toordinal a + days d)
                                (day_seconds a + seconds d)).
  destruct (mk_timedelta _ _) as [delta| |]; try done. simpl.
  destruct (_ && _); [|done]. by destruct (ord2ymd _) as [[? ?] ?].
Qed.

Lemma dt_sub_td_ends a d : dt_sub_td a d <> OutOfFuel.
Proof.
  unfold dt_sub_td, td_neg. pose proof (mk_timedelta_ends (- days d) (- seconds d)).
  destruct (mk_timedelta _ _) as [nd| |]; try done. simpl. apply dt_add_ends.
Qed.

Lemma dt_sub_ends a b : dt_sub a b <> OutOfFuel.
Proof. apply mk_timedelta_ends. Qed.

Lemma when_emit {E} (c : bool) (ev : E) :
  when c (emit ev) = (if c then [ev] else [], Ok tt).
Proof. by destruct c. Qed.

Lemma bind_out {E A B} (out : list E) (a : A) (k : A -> M E B) :
  bind (out, Ok a) k = (out ++ fst (k a), snd (k a)).
Proof. unfold bind. by destruct (k a). Qed.

(** A loop over the files stops at the first body that raises. *)
Lemma for_each_abort {E A} (body : A -> M E unit) (pre post : list A) (x : A)
    (out : list E) (err : exn) :
  Forall (fun v => snd (body v) = Ok tt) pre ->
  body x = (out, Raise err) ->
  for_each (pre ++ x :: post) body
  = (concat (map (fun v => fst (body v)) pre) ++ out, Raise err).
Proof.
  intros Hpre Hx. induction Hpre as [|v pre Hv Hpre IH]; simpl.
  - by rewrite Hx.
  - destruct (body v) as [o r]. simpl in Hv. subst r.
    rewrite bind_out, IH. simpl. by rewrite app_assoc.
Qed.

(** C7 as stated fails.  With two video files of which the first belongs to
    a dive the dive log does not list, or cannot be probed, the run ends
    with the unhandled exception and cuts no clip, although the second file
    processed on its own gets three. *)
Lemma one_bad_video_stops_the_batch :
  (forall fuel, ClipVideos.main Examples.missing_dive fuel = ([], Raise TypeError))
  /\ (forall fuel, ClipVideos.main Examples.bad_probe fuel = ([], Raise ValueError))
  /\ (exists starts ends,
        ClipVideos.startsDict Examples.missing_dive = Ok starts
        /\ ClipVideos.endsDict Examples.missing_dive = Ok ends
        /\ offsets (fst (ClipVideos.process_video Examples.missing_dive 4 starts ends
                           "TR1_D01_20220701_095000.mp4")) = [570; 1170; 1770])
  /\ (exists starts ends,
        ClipVideos.startsDict Examples.bad_probe = Ok starts
        /\ ClipVideos.endsDict Examples.bad_probe = Ok ends
        /\ offsets (fst (ClipVideos.process_video Examples.bad_probe 4 starts ends
                           "TR1_D01_20220701_095000.mp4")) = [570; 1170; 1770]).
Proof.
  split; [|split; [|split]].
  - intros fuel. vm_compute. reflexivity.
  - intros fuel. vm_compute. reflexivity.
  - eexists _, _. split; [reflexivity|]. split; [reflexivity|]. vm_compute. reflexivity.
  - eexists _, _. split; [reflexivity|]. split; [reflexivity|]. vm_compute. reflexivity.
Qed.

Section Abort.

Variable e : ClipVideos.env.
Variables (fuel : nat) (starts ends : gmap string string).
Variables (video tripid divename videostart : string) (vs : datetime).

Hypothesis Hparse : ClipVideos.parse_filename video = Ok (tripid, divename, videostart).
Hypothesis Hstart : strptime videostart fmt_video = Ok vs.

(** A dive name absent from the first dictionary: [strptime(None, ...)]. *)
Lemma missing_dive_raises :
  starts !! divename = None ->
  ClipVideos.process_video e fuel starts ends video = ([], Raise TypeError).
Proof.
  intros H. unfold ClipVideos.process_video.
  rewrite Hparse. step_bind. rewrite Hstart. step_bind. by rewrite H.
Qed.

(** Probe output without a number: [float('')] and the like. *)
Lemma bad_probe_raises :
  float_of_string (keep_digits_dots (ClipVideos.ffprobe e (ClipVideos.durcall e video)))
  = Raise ValueError ->
  exists out x,
    ClipVideos.process_video e fuel starts ends video = (out, Raise x)
    /\ boundaries out = [].
Proof.
  intros H. unfold ClipVideos.process_video.
  rewrite Hparse. step_bind. rewrite Hstart. step_bind.
  pose proof (strptime_opt_ends (starts !! divename) fmt_log).
  destruct (strptime_opt (starts !! divename) fmt_log) as [ts|x|]; [|by eexists _, _|done].
  step_bind.
  pose proof (strptime_opt_ends (ends !! divename) fmt_log).
  destruct (strptime_opt (ends !! divename) fmt_log) as [te|x|]; [|by eexists _, _|done].
  rewrite when_emit, bind_out.
  set (w := if dt_gt vs ts then _ else _).
  assert (Hw : boundaries w = []) by (unfold w; by destruct (dt_gt vs ts)).
  step_bind.
  pose proof (dt_sub_td_ends ts (Timedelta 0 30)).
  destruct (dt_sub_td ts (Timedelta 0 30)) as [ts'|x|]; [|eexists _, _; split; [done|]|done].
  2: { cbn [fst]. by rewrite app_nil_r. }
  step_bind.
  pose proof (dt_add_ends te (Timedelta 0 30)).
  destruct (dt_add te (Timedelta 0 30)) as [te'|x|]; [|eexists _, _; split; [done|]|done].
  2: { cbn [fst]. by rewrite app_nil_r. }
  step_bind.
  pose proof (dt_sub_ends ts' vs).
  destruct (dt_sub ts' vs) as [el|x|]; [|eexists _, _; split; [done|]|done].
  2: { cbn [fst]. by rewrite app_nil_r. }
  step_bind. rewrite H. eexists _, _. split; [done|].
  cbn [fst]. by rewrite app_nil_r.
Qed.

End Abort.

(** C7, amended.  No exception is caught in the script.  When the dive of a
    video is absent from the dive log index ([TypeError], nothing emitted
    for the video), or the output of the duration probe holds no number
    (an exception, no clip cut for the video), the run ends at that video
    with the unhandled exception: what the earlier videos emitted stays and
    no later video file is processed. *)
Theorem failing_video_aborts_run (e : ClipVideos.env) (fuel : nat)
    (starts ends : gmap string string) (pre post : list string)
    (video tripid divename videostart : string) (vs : datetime) :
  ClipVideos.startsDict e = Ok starts ->
  ClipVideos.endsDict e = Ok ends ->
  ClipVideos.videofiles e = pre ++ video :: post ->
  Forall (fun v => snd (ClipVideos.process_video e fuel starts ends v) = Ok tt) pre ->
  ClipVideos.parse_filename video = Ok (tripid, divename, videostart) ->
  strptime videostart fmt_video = Ok vs ->
  starts !! divename = None
  \/ float_of_string (keep_digits_dots (ClipVideos.ffprobe e (ClipVideos.durcall e video)))
     = Raise ValueError ->
  exists out x,
    ClipVideos.process_video e fuel starts ends video = (out, Raise x)
    /\ boundaries out = []
    /\ (starts !! divename = None -> out = [] /\ x = TypeError)
    /\ ClipVideos.main e fuel
       = (concat (map (fun v => fst (ClipVideos.process_video e fuel starts ends v)) pre)
          ++ out, Raise x).
Proof.
  intros Hs He Hfiles Hpre Hparse Hstart Hbad.
  assert (Hv : exists out x,
             ClipVideos.process_video e fuel starts ends video = (out, Raise x)
             /\ boundaries out = []
             /\ (starts !! divename = None -> out = [] /\ x = TypeError)).
  { destruct (starts !! divename) as [tstart|] eqn:Hd.
    - destruct Hbad as [|Hbad]; [done|].
      destruct (bad_probe_raises e fuel starts ends _ _ _ _ vs Hparse Hstart Hbad)
        as (out & x & Hp & Hb).
      by exists out, x.
    - exists [], TypeError. split; [|done].
      by apply (missing_dive_raises e fuel starts ends _ _ _ _ vs Hparse Hstart). }
  destruct Hv as (out & x & Hp & Hb & Hm).
  exists out, x. repeat split; try done; try (by apply Hm).
  unfold ClipVideos.main. rewrite Hs, He, Hfiles. step_bind.
  by apply for_each_abort.
Qed.

Lemma failing_video_aborts_run_witness :
  exists out x,
    ClipVideos.process_video Examples.missing_dive 4
      (delete "Dive_Name" (<["D01" := "2022-07-01 10:00:00"]> (<["Dive_Name" := "Start_UTC"]> ∅)))
      (delete "Dive_Name" (<["D01" := "2022-07-01 10:20:00"]> (<["Dive_Name" := "End_UTC"]> ∅)))
      "TR1_D00_20220701_080000.mp4" = (out, Raise x)
    /\ boundaries out = []
    /\ ((delete "Dive_Name" (<["D01" := "2022-07-01 10:00:00"]> (<["Dive_Name" := "Start_UTC"]> ∅))
          : gmap string string) !! "D00" = None -> out = [] /\ x = TypeError)
    /\ ClipVideos.main Examples.missing_dive 4 = ([] ++ out, Raise x).
Proof.
  apply (failing_video_aborts_run Examples.missing_dive 4 _ _ []
           ["TR1_D01_20220701_095000.mp4"] "TR1_D00_20220701_080000.mp4"
           "TR1" "D00" "20220701 080000" (Datetime 2022 7 1 8 0 0)).
  - reflexivity.
  - reflexivity.
  - reflexivity.
  - constructor.
  - reflexivity.
  - reflexivity.
  - left. reflexivity.
Defined.

(** ** Telemetry rows of a clip *)



Section Selection.

Context {F : Type}.
Implicit Types (data : list (GenerateSubtitles.row F)) (r : GenerateSubtitles.row F).


End Selection.


(** ** Caption entries *)

Lemma collect_map {A B} (f : A -> result B) (g : A -> B) (xs : list A) :
  Forall (fun x => f x = Ok (g x)) xs -> GenerateSubtitles.collect f xs = Ok (map g xs).
Proof.
  induction 1 as [|x xs Hx _ IH]; [done|].
  cbn [GenerateSubtitles.collect]. rewrite Hx. simpl. by rewrite IH.
Qed.

Lemma col_pos_elem (label : string) (cols : list string) :
  label ∈ cols -> is_Some (GenerateSubtitles.col_pos label cols).
Proof.
  induction cols as [|c cols IH]; [by intros ?%elem_of_nil|].
  intros H. simpl. destruct (String.eqb_spec c label) as [->|Hne]; [by eexists|].
  apply elem_of_cons in H as [->|H]; [done|].
  destruct (IH H) as [k ->]. by eexists.
Qed.

Lemma stdfields_labels :
  Forall (fun l => l ∈ GenerateSubtitles.newnames) GenerateSubtitles.stdfields.
Proof.
  apply Forall_forall. intros l H. unfold GenerateSubtitles.stdfields in H.
  by apply list_elem_of_filter in H as [_ H].
Qed.

Section Captions.

Context {F : Type}.
Variable round_float : Z -> F -> F.
Variable str_float : F -> string.
Variable timedelta_str : list Z -> Z -> string.

Implicit Types (vdata : list (GenerateSubtitles.row F)) (r : GenerateSubtitles.row F).
Implicit Types (e : GenerateSubtitles.env F) (oc labels : list string).

Lemma othercols_labels e :
  iterates e -> Forall (fun l => l ∈ GenerateSubtitles.newnames) (GenerateSubtitles.othercols e).
Proof.
  intros He. apply Forall_forall. intros l H.
  unfold GenerateSubtitles.othercols in H. rewrite (He _) in H.
  apply elem_of_elements in H. unfold GenerateSubtitles.othercols_set in H.
  apply elem_of_difference in H as [H _]. by apply elem_of_list_to_set in H.
Qed.

Lemma value_ok oc label r :
  label ∈ GenerateSubtitles.newnames ->
  GenerateSubtitles.value round_float oc label r = Ok (cell_at round_float oc label r).
Proof.
  intros H. unfold cell_at, GenerateSubtitles.value.
  by destruct (col_pos_elem _ _ H) as [k ->].
Qed.

Lemma field_items_map oc labels r :
  Forall (fun l => l ∈ GenerateSubtitles.newnames) labels ->
  GenerateSubtitles.field_items round_float str_float oc labels r
  = Ok (map (item round_float str_float oc r) labels).
Proof.
  induction 1 as [|l labels Hl _ IH]; [done|].
  cbn [GenerateSubtitles.field_items]. rewrite (value_ok _ _ _ Hl). simpl.
  by rewrite IH.
Qed.

Lemma entry_ok oc (clipStart : Z) vdata (i : nat) r r' :
  Forall (fun l => l ∈ GenerateSubtitles.newnames) oc ->
  vdata !! i = Some r -> vdata !! (i + 1)%nat = Some r' ->
  GenerateSubtitles.entry round_float str_float timedelta_str oc clipStart vdata i
  = Ok (block_head round_float str_float timedelta_str oc clipStart vdata i r r'
        ++ map (item round_float str_float oc r) oc
        ++ [GenerateSubtitles.nl +:+ GenerateSubtitles.nl]).
Proof.
  intros Hoc Hr Hr'. unfold GenerateSubtitles.entry, index.
  rewrite Hr, Hr'. cbn [rbind].
  rewrite (field_items_map _ _ _ stdfields_labels), (field_items_map _ _ _ Hoc).
  cbn [rbind]. unfold block_head. by rewrite <- !app_assoc.
Qed.

Lemma entries_ok oc (clipStart : Z) vdata :
  Forall (fun l => l ∈ GenerateSubtitles.newnames) oc ->
  GenerateSubtitles.entries round_float str_float timedelta_str oc clipStart vdata
  = Ok (map (block_at round_float str_float timedelta_str oc clipStart vdata)
          (seq 0 (length vdata - 1))).
Proof.
  intros Hoc. unfold GenerateSubtitles.entries. apply collect_map.
  apply Forall_forall. intros i Hi. apply elem_of_seq in Hi.
  destruct (lookup_lt_is_Some_2 vdata i) as [r Hr]; [lia|].
  destruct (lookup_lt_is_Some_2 vdata (i + 1)) as [r' Hr']; [lia|].
  unfold block_at. rewrite Hr, Hr'. by apply entry_ok.
Qed.


End Captions.

Lemma iterates_elements {F} vp rows vids probe :
  iterates (GenerateSubtitles.Env (F := F) vp rows vids probe elements).
Proof. by intros X. Qed.



(** ** Two runs of the caption script *)


Lemma block_equiv_refl_tail (head o : list string) :
  block_equiv (head ++ o ++ [GenerateSubtitles.nl +:+ GenerateSubtitles.nl])
              (head ++ o ++ [GenerateSubtitles.nl +:+ GenerateSubtitles.nl]).
Proof. by exists head, o, o. Qed.



Section TwoRuns.

Context {F : Type}.
Variable round_float : Z -> F -> F.
Variable str_float : F -> string.
Variable timedelta_str : list Z -> Z -> string.

Implicit Types (vdata data : list (GenerateSubtitles.row F)) (r : GenerateSubtitles.row F).
Implicit Types (e : GenerateSubtitles.env F) (oc : list string).





End TwoRuns.


(** ** The clip loop within one day

    Where the seconds do not wrap, the loop cuts what the window asks for:
    starting from offset 0 with a bound [W] and clips of [L] seconds such
    that [W + L] fits in one day, it cuts [⌈W / L⌉] clips at offsets
    [0, L, 2 L, ...]. *)

Lemma days_before_month_bounds (y m : Z) :
  1 <= m <= 12 -> 0 <= days_before_month y m <= 335.
Proof.
  intros Hm. unfold days_before_month.
  assert (Hc : m = 1 \/ m = 2 \/ m = 3 \/ m = 4 \/ m = 5 \/ m = 6 \/ m = 7 \/ m = 8
               \/ m = 9 \/ m = 10 \/ m = 11 \/ m = 12) by lia.
  destruct Hc as [-> | [-> | [-> | [-> | [-> | [-> | [-> | [-> | [-> | [-> | [-> | ->]]]]]]]]]]];
    unfold DAYS_BEFORE_MONTH; destruct (is_leap y); simpl; lia.
Qed.

Lemma toordinal_bounds (dt : datetime) :
  valid_datetime dt = true -> year dt <= 9998 ->
  1 <= toordinal dt < MAXORDINAL /\ 0 <= day_seconds dt < 86400.
Proof.
  intros Hv Hy. pose proof (valid_datetime_bounds _ Hv) as (H1 & H2 & H3 & H4 & H5 & H6).
  pose proof (days_before_month_bounds (year dt) (month dt) H2) as Hm.
  unfold toordinal, ymd2ord, days_before_year, day_seconds, MAXORDINAL.
  set (y := year dt - 1).
  assert (0 <= y <= 9997) by (unfold y; lia).
  pose proof (Z.div_mod y 4 ltac:(lia)). pose proof (Z.mod_pos_bound y 4 ltac:(lia)).
  pose proof (Z.div_mod y 100 ltac:(lia)). pose proof (Z.mod_pos_bound y 100 ltac:(lia)).
  pose proof (Z.div_mod y 400 ltac:(lia)). pose proof (Z.mod_pos_bound y 400 ltac:(lia)).
  lia.
Qed.

Lemma mk_timedelta_small (d s : Z) :
  Z.abs d <= 999999999 -> 0 <= s < 86400 -> mk_timedelta d s = Ok (Timedelta d s).
Proof.
  intros Hd Hs. unfold mk_timedelta.
  rewrite Z.div_small, Z.mod_small, Z.add_0_r by done.
  by destruct (Z.leb_spec (Z.abs d) 999999999); [|lia].
Qed.

Lemma dt_sub_self (a : datetime) : dt_sub a a = Ok (Timedelta 0 0).
Proof. unfold dt_sub. rewrite !Z.sub_diag. reflexivity. Qed.

Lemma dt_add_defined (a : datetime) (s : Z) :
  1 <= toordinal a < MAXORDINAL -> 0 <= day_seconds a < 86400 -> 0 <= s < 86400 ->
  exists b, dt_add a (Timedelta 0 s) = Ok b.
Proof.
  unfold MAXORDINAL. intros Ha Hd Hs. unfold dt_add, mk_timedelta. cbn [days seconds].
  set (q := (day_seconds a + s) / 86400).
  assert (0 <= q <= 1).
  { unfold q. split; [apply Z.div_pos; lia|].
    apply Z.lt_succ_r. apply Z.div_lt_upper_bound; lia. }
  destruct (Z.leb_spec (Z.abs (toordinal a + 0 + q)) 999999999); [|lia].
  cbn [rbind days seconds]. unfold MAXORDINAL.
  destruct (Z.ltb_spec 0 (toordinal a + 0 + q)); [|lia].
  destruct (Z.leb_spec (toordinal a + 0 + q) 3652059); [|lia].
  cbn [andb]. destruct (ord2ymd _) as [[y m] d]. by eexists.
Qed.

Section WithinDay.

Variable e : ClipVideos.env.
Variables (video tripid divename : string) (vs : datetime).
Variables (m W : Z).

Hypothesis Hvalid : valid_datetime vs = true.
Hypothesis Hyear : year vs <= 9998.
Hypothesis Hsize : int_of_string (ClipVideos.clipsize e) = Ok m.
Hypothesis Hm : 0 < m.
Hypothesis HW : 0 < W.
Hypothesis Hday : W + m * 60 <= 86400.

(** The loop from offset [s], a multiple of the clip length below one day. *)
Lemma clip_loop_from (fuel : nat) (s : Z) :
  0 <= s -> s < W + m * 60 ->
  (Z.to_nat (ceil_div (W - s) (m * 60)) < fuel)%nat ->
  exists out,
    ClipVideos.clip_loop e fuel video tripid divename vs W (Timedelta 0 s) = (out, Ok tt)
    /\ offsets out
       = map (fun k => s + Z.of_nat k * (m * 60))
             (seq 0 (Z.to_nat (ceil_div (W - s) (m * 60))))
    /\ Forall (fun b => ClipVideos.length_min b = ClipVideos.clipsize e
                        /\ ClipVideos.source b = video) (boundaries out).
Proof.
  set (L := m * 60) in *. assert (HL : 0 < L) by (unfold L; lia).
  revert s. induction fuel as [|fuel IH]; intros s Hs0 Hs Hfuel; [lia|].
  cbn [ClipVideos.clip_loop seconds].
  destruct (Z.ltb_spec s W) as [Hlt|Hge].
  - destruct (toordinal_bounds vs Hvalid Hyear) as [Ho Hd].
    destruct (dt_add_defined vs s Ho Hd ltac:(lia)) as [st Hst].
    rewrite Hst. step_bind. rewrite Hsize. step_bind.
    fold L. rewrite (mk_timedelta_small 0 L) by lia. step_bind.
    unfold td_add. cbn [days seconds]. rewrite (mk_timedelta_small (0 + 0) (s + L)) by lia.
    step_bind. change (0 + 0) with 0.
    assert (Hn : ceil_div (W - s) L = 1 + ceil_div (W - (s + L)) L).
    { unfold ceil_div. replace (W - s + L - 1) with (W - (s + L) + L - 1 + 1 * L) by lia.
      rewrite Z.div_add by lia. lia. }
    assert (Hn0 : 0 <= ceil_div (W - (s + L)) L).
    { unfold ceil_div. apply Z.div_pos; lia. }
    destruct (IH (s + L)) as (out & Hout & Hoff & Hall); [lia|lia|lia|].
    rewrite Hout. cbn [fst snd]. eexists. split; [done|]. split.
    + unfold offsets in *. cbn [boundaries map ClipVideos.offset].
      rewrite Hoff, Hn, Z2Nat.inj_add by lia.
      change (Z.to_nat 1) with 1%nat. cbn [Nat.add seq map].
      f_equal; [unfold total_seconds; cbn; lia|].
      rewrite <- seq_shift, map_map. apply map_ext. intros k. lia.
    + cbn [boundaries]. by constructor.
  - assert (Hn : ceil_div (W - s) L = 0).
    { unfold ceil_div. apply Z.div_small. lia. }
    rewrite Hn. by exists [].
Qed.

(** X14.  From offset 0, with a bound [W] and a clip length [L] such that
    [W + L] fits in one day: [⌈W / L⌉] clips, [L] seconds apart, each of the
    configured length. *)
Lemma clip_loop_within_day (fuel : nat) :
  (Z.to_nat (ceil_div W (m * 60)) < fuel)%nat ->
  exists out,
    ClipVideos.clip_loop e fuel video tripid divename vs W (Timedelta 0 0) = (out, Ok tt)
    /\ length (boundaries out) = Z.to_nat (ceil_div W (m * 60))
    /\ offsets out
       = map (fun k => Z.of_nat k * (m * 60)) (seq 0 (Z.to_nat (ceil_div W (m * 60))))
    /\ Forall (fun b => ClipVideos.length_min b = ClipVideos.clipsize e
                        /\ ClipVideos.source b = video) (boundaries out).
Proof.
  intros Hfuel. destruct (clip_loop_from fuel 0) as (out & Hout & Hoff & Hall).
  - lia.
  - lia.
  - by rewrite Z.sub_0_r.
  - rewrite Z.sub_0_r in Hoff. exists out. split; [done|]. split; [|split; [|done]].
    + apply (f_equal length) in Hoff. unfold offsets in Hoff.
      by rewrite !length_map, length_seq in Hoff.
    + rewrite Hoff. apply map_ext. intros k. lia.
Qed.

End WithinDay.

(** * Further properties of the two scripts *)

(** ** The dive log index *)

Lemma index_z_outcome {A} (l : list A) (i : Z) :
  (exists x, index_z l i = Ok x) \/ index_z l i = Raise IndexError.
Proof.
  unfold index_z, index. destruct (_ <? 0); [by right|].
  destruct (l !! _); [left; by eexists|by right].
Qed.

Lemma csv_dict_from_lookup (rows : list (list string)) (col1 col2 : Z)
    (d0 d : gmap string string) (k : string) :
  ClipVideos.csv_dict_from rows col1 col2 d0 = Ok d ->
  d !! k = match last_row_value rows col1 col2 k with
           | Some v => Some v
           | None => d0 !! k
           end.
Proof.
  revert d0. induction rows as [|r rows IH]; intros d0 H.
  - by injection H as <-.
  - cbn [ClipVideos.csv_dict_from last_row_value] in *.
    destruct (index_z r (col1 - 1)) as [k'| |]; try done.
    destruct (index_z r (col2 - 1)) as [v| |]; try done.
    cbn [rbind] in H. rewrite (IH _ H).
    destruct (last_row_value rows col1 col2 k); [done|].
    destruct (String.eqb_spec k' k) as [->|Hne].
    + by rewrite lookup_insert_eq.
    + by rewrite lookup_insert_ne.
Qed.

(** X1.  The dive log index maps a dive name to the start (end) time of the
    last row of the dive log that carries this name: later rows overwrite
    earlier ones; the key ["Dive_Name"] of the header row is never in it. *)
Theorem dive_log_index_lookup (e : ClipVideos.env) (starts ends : gmap string string) :
  ClipVideos.startsDict e = Ok starts ->
  ClipVideos.endsDict e = Ok ends ->
  starts !! "Dive_Name" = None
  /\ ends !! "Dive_Name" = None
  /\ forall k, k <> "Dive_Name" ->
       starts !! k
       = last_row_value (ClipVideos.divelog e) (ClipVideos.dive e) (ClipVideos.start e) k
       /\ ends !! k
          = last_row_value (ClipVideos.divelog e) (ClipVideos.dive e) (ClipVideos.end_ e) k.
Proof.
  unfold ClipVideos.startsDict, ClipVideos.endsDict, ClipVideos.csv_dict.
  destruct (ClipVideos.csv_dict_from _ _ (ClipVideos.start e) _) as [d1| |] eqn:H1; try done.
  destruct (ClipVideos.csv_dict_from _ _ (ClipVideos.end_ e) _) as [d2| |] eqn:H2; try done.
  cbn [rbind]. intros [= <-] [= <-].
  split; [apply lookup_delete_eq|]. split; [apply lookup_delete_eq|].
  intros k Hk. rewrite !lookup_delete_ne by done.
  rewrite (csv_dict_from_lookup _ _ _ _ _ k H1), (csv_dict_from_lookup _ _ _ _ _ k H2).
  rewrite lookup_empty. split.
  - by destruct (last_row_value _ _ (ClipVideos.start e) k).
  - by destruct (last_row_value _ _ (ClipVideos.end_ e) k).
Qed.

Lemma csv_dict_from_short (rows : list (list string)) (col1 col2 : Z)
    (d0 : gmap string string) (r : list string) :
  r ∈ rows ->
  index_z r (col1 - 1) = Raise IndexError \/ index_z r (col2 - 1) = Raise IndexError ->
  ClipVideos.csv_dict_from rows col1 col2 d0 = Raise IndexError.
Proof.
  intros Hin Hr. revert d0. induction rows as [|r' rows IH]; intros d0.
  - by apply elem_of_nil in Hin.
  - cbn [ClipVideos.csv_dict_from].
    destruct (index_z_outcome r' (col1 - 1)) as [[k Hk]|Hk]; rewrite Hk; [|done].
    destruct (index_z_outcome r' (col2 - 1)) as [[v Hv]|Hv]; rewrite Hv; [|done].
    cbn [rbind]. apply elem_of_cons in Hin as [->|Hin]; [|by apply IH].
    destruct Hr; congruence.
Qed.

Lemma index_z_short {A} (l : list A) (c : Z) :
  1 <= c -> Z.of_nat (length l) < c -> index_z l (c - 1) = Raise IndexError.
Proof.
  intros Hc Hl. unfold index_z, index. cbv zeta.
  destruct (Z.ltb_spec (c - 1) 0); [lia|].
  destruct (Z.ltb_spec (c - 1) 0); [lia|].
  by rewrite lookup_ge_None_2 by lia.
Qed.

(** X2.  A row of the dive log with fewer fields than the dive-name column
    or the start-time column asks for (an empty line, for one) makes the
    set-up fail with [IndexError]: the script ends before it looks at any
    video. *)
Theorem short_log_row_aborts (e : ClipVideos.env) (fuel : nat) (r : list string) :
  1 <= ClipVideos.dive e -> 1 <= ClipVideos.start e ->
  r ∈ ClipVideos.divelog e ->
  Z.of_nat (length r) < ClipVideos.dive e \/ Z.of_nat (length r) < ClipVideos.start e ->
  ClipVideos.startsDict e = Raise IndexError
  /\ ClipVideos.main e fuel = ([], Raise IndexError).
Proof.
  intros Hd Hs Hin Hlen.
  assert (H : ClipVideos.startsDict e = Raise IndexError).
  { unfold ClipVideos.startsDict, ClipVideos.csv_dict.
    rewrite (csv_dict_from_short _ _ _ _ r Hin); [done|].
    destruct Hlen; [left|right]; by apply index_z_short. }
  split; [done|]. unfold ClipVideos.main. by rewrite H.
Qed.

(** ** The duration probe and the warnings *)

Lemma boundaries_app (out1 out2 : list ClipVideos.event) :
  boundaries (out1 ++ out2) = boundaries out1 ++ boundaries out2.
Proof.
  induction out1 as [|[msg|b] out1 IH]; cbn [app boundaries]; [done|done|].
  by rewrite IH.
Qed.

Lemma same_clips_bind_lift {A} (r : result A) (k1 k2 : A -> M ClipVideos.event unit) :
  (forall a, r = Ok a -> same_clips (k1 a) (k2 a)) ->
  same_clips (bind (lift r) k1) (bind (lift r) k2).
Proof.
  intros H. rewrite !bind_lift. destruct r as [a| |]; [by apply H| |]; by split.
Qed.

Lemma same_clips_bind_print (c1 c2 : bool) (msg1 msg2 : string)
    (k1 k2 : unit -> M ClipVideos.event unit) :
  same_clips (k1 tt) (k2 tt) ->
  same_clips (bind (when c1 (emit (ClipVideos.Print msg1))) k1)
             (bind (when c2 (emit (ClipVideos.Print msg2))) k2).
Proof.
  intros [Hb Hs]. rewrite !when_emit, !bind_out. split; cbn [fst snd]; [|done].
  rewrite !boundaries_app, Hb. by destruct c1, c2.
Qed.

Lemma clip_loop_set_ffprobe (e : ClipVideos.env) (probe : string -> string) (fuel : nat)
    video tripid divename vs bound elapsed :
  ClipVideos.clip_loop (set_ffprobe e probe) fuel video tripid divename vs bound elapsed
  = ClipVideos.clip_loop e fuel video tripid divename vs bound elapsed.
Proof.
  revert elapsed. induction fuel as [|fuel IH]; intros elapsed; [done|].
  cbn [ClipVideos.clip_loop set_ffprobe ClipVideos.clipsize].
  destruct (_ <? _); [|done].
  step_bind. destruct (dt_add vs elapsed) as [st| |]; [|done..].
  step_bind. destruct (int_of_string (ClipVideos.clipsize e)) as [n| |]; [|done..].
  step_bind. destruct (mk_timedelta 0 (n * 60)) as [step| |]; [|done..].
  step_bind. destruct (td_add elapsed step) as [el'| |]; [|done..].
  by rewrite IH.
Qed.

(** X3.  The probed duration decides the second warning and nothing else:
    with any other probe output that reads as a number, the script cuts
    the same clips for the video and ends the same way. *)
Theorem probe_only_warns (e : ClipVideos.env) (probe : string -> string) (fuel : nat)
    (starts ends : gmap string string) (video : string) (d1 d2 : decimal) :
  float_of_string (keep_digits_dots (ClipVideos.ffprobe e (ClipVideos.durcall e video)))
  = Ok d1 ->
  float_of_string (keep_digits_dots (probe (ClipVideos.durcall e video))) = Ok d2 ->
  same_clips (ClipVideos.process_video e fuel starts ends video)
             (ClipVideos.process_video (set_ffprobe e probe) fuel starts ends video).
Proof.
  intros H1 H2. unfold ClipVideos.process_video.
  apply same_clips_bind_lift. intros [[tripid divename] videostart] _.
  do 3 (apply same_clips_bind_lift; intros ? _).
  apply same_clips_bind_print.
  do 3 (apply same_clips_bind_lift; intros ? _).
  change (ClipVideos.ffprobe (set_ffprobe e probe)) with probe.
  change (ClipVideos.durcall (set_ffprobe e probe) video) with (ClipVideos.durcall e video).
  rewrite H1, H2. step_bind.
  destruct (ClipVideos.elapsed_end _ _) as [bound| |]; [|by split..].
  apply same_clips_bind_print.
  rewrite clip_loop_set_ffprobe. by split.
Qed.

(** ** The clip loop in any run *)

Lemma total_mk_timedelta (d s : Z) (t : timedelta) :
  mk_timedelta d s = Ok t ->
  total_seconds t = d * 86400 + s /\ 0 <= seconds t < 86400.
Proof.
  unfold mk_timedelta. destruct (_ <=? _); [|done]. intros [= <-].
  unfold total_seconds. cbn [days seconds].
  pose proof (Z.div_mod s 86400 ltac:(lia)).
  pose proof (Z.mod_pos_bound s 86400 ltac:(lia)). lia.
Qed.

Section AnyRun.

Variable e : ClipVideos.env.
Variables (video tripid divename : string) (vs : datetime) (bound : Z).

(** X4.  The clips of one video are cut at offsets exactly one clip length
    apart, whatever the window and however the loop ends: the [k]-th
    boundary lies [k] clip lengths after the first; every boundary is cut
    from the video at hand with the configured length. *)
Theorem clip_offsets_progression (fuel : nat) (elapsed : timedelta) (m : Z) :
  int_of_string (ClipVideos.clipsize e) = Ok m ->
  let out := fst (ClipVideos.clip_loop e fuel video tripid divename vs bound elapsed) in
  offsets out
  = map (fun k => total_seconds elapsed + Z.of_nat k * (m * 60))
        (seq 0 (length (boundaries out)))
  /\ Forall (fun b => ClipVideos.source b = video
                      /\ ClipVideos.length_min b = ClipVideos.clipsize e)
            (boundaries out).
Proof.
  intros Hm. cbv zeta. revert elapsed.
  induction fuel as [|fuel IH]; intros elapsed; [by split|].
  cbn [ClipVideos.clip_loop]. destruct (_ <? _); [|by split].
  step_bind. destruct (dt_add vs elapsed) as [st| |]; [|by split..].
  step_bind. rewrite Hm. step_bind.
  cbn [fst]. unfold offsets. cbn [boundaries map length seq ClipVideos.offset].
  rewrite Z.mul_0_l, Z.add_0_r.
  destruct (mk_timedelta 0 (m * 60)) as [step| |] eqn:Hstep;
    [|cbn [fst boundaries map length seq]; split; [done|by repeat constructor]..].
  step_bind.
  destruct (td_add elapsed step) as [el'| |] eqn:Hadd;
    [|cbn [fst boundaries map length seq]; split; [done|by repeat constructor]..].
  destruct (IH el') as [IHo IHf]. split; [|by constructor].
  f_equal. unfold offsets in IHo. rewrite IHo.
  rewrite <- seq_shift, map_map. apply map_ext. intros k.
  apply total_mk_timedelta in Hstep as [Hstep _].
  apply total_mk_timedelta in Hadd as [Hadd _].
  rewrite Hadd. unfold total_seconds in *. lia.
Qed.

(** X5.  A clip size of 0 never advances the offset: once the loop is
    entered it does not end; every step cuts a clip at the same offset. *)
Theorem zero_clipsize_never_ends (fuel : nat) (elapsed : timedelta) (st : datetime) :
  int_of_string (ClipVideos.clipsize e) = Ok 0 ->
  0 <= seconds elapsed < 86400 -> Z.abs (days elapsed) <= 999999999 ->
  seconds elapsed < bound ->
  dt_add vs elapsed = Ok st ->
  snd (ClipVideos.clip_loop e fuel video tripid divename vs bound elapsed) = OutOfFuel
  /\ offsets (fst (ClipVideos.clip_loop e fuel video tripid divename vs bound elapsed))
     = repeat (total_seconds elapsed) fuel.
Proof.
  intros Hm Hs Hd Hlt Hst. induction fuel as [|fuel [IHs IHo]]; [by split|].
  cbn [ClipVideos.clip_loop]. destruct (Z.ltb_spec (seconds elapsed) bound); [|lia].
  rewrite Hst. step_bind. rewrite Hm. step_bind.
  change (mk_timedelta 0 (0 * 60)) with (Ok (Timedelta 0 0)). step_bind.
  unfold td_add. cbn [days seconds]. rewrite !Z.add_0_r.
  rewrite (mk_timedelta_small _ _ Hd Hs). step_bind.
  replace (Timedelta (days elapsed) (seconds elapsed)) with elapsed by (by destruct elapsed).
  cbn [fst snd]. split; [done|].
  unfold offsets in *. cbn [boundaries map ClipVideos.offset repeat]. by rewrite IHo.
Qed.

(** X6.  A clip size that is not an integer is noticed late: [int] raises
    [ValueError] after the first clip has been cut; when the loop is not
    entered the script does not notice it at all. *)
Theorem bad_clipsize_after_first_clip (fuel : nat) (elapsed : timedelta) :
  int_of_string (ClipVideos.clipsize e) = Raise ValueError ->
  (forall st, seconds elapsed < bound -> dt_add vs elapsed = Ok st ->
     ClipVideos.clip_loop e (S fuel) video tripid divename vs bound elapsed
     = ([ClipVideos.Call (ClipVideos.Boundary video elapsed (ClipVideos.clipsize e)
           (ClipVideos.outputdir +:+ "/" +:+ tripid +:+ "_" +:+ divename +:+ "_"
            +:+ strftime_clip st +:+ ".mp4"))],
        Raise ValueError))
  /\ (bound <= seconds elapsed ->
      ClipVideos.clip_loop e (S fuel) video tripid divename vs bound elapsed = ([], Ok tt)).
Proof.
  intros Hm. split.
  - intros st Hlt Hst. cbn [ClipVideos.clip_loop].
    destruct (Z.ltb_spec (seconds elapsed) bound); [|lia].
    rewrite Hst. step_bind. by rewrite Hm.
  - intros Hge. cbn [ClipVideos.clip_loop].
    by destruct (Z.ltb_spec (seconds elapsed) bound); [lia|].
Qed.

End AnyRun.

(** ** The script ends *)

Lemma strptime_valid (s : string) (fmt : list directive) (dt : datetime) :
  strptime s fmt = Ok dt -> valid_datetime dt = true.
Proof.
  unfold strptime. destruct (match_format _ _ _) as [|[dt' [|? ?]] ?]; try done.
  destruct (valid_datetime dt') eqn:H; [|done]. by intros [= <-].
Qed.

Lemma day_seconds_nonneg (dt : datetime) : valid_datetime dt = true -> 0 <= day_seconds dt.
Proof.
  intros H. pose proof (valid_datetime_bounds _ H). unfold day_seconds. lia.
Qed.

(** Past the last day of the year 9999 the addition raises. *)
Lemma dt_add_overflow (a : datetime) (d : timedelta) :
  0 <= day_seconds a -> 0 <= seconds d -> MAXORDINAL < toordinal a + days d ->
  dt_add a d = Raise OverflowError.
Proof.
  unfold MAXORDINAL. intros Ha Hd Hlt. unfold dt_add, mk_timedelta.
  pose proof (Z.div_pos (day_seconds a + seconds d) 86400 ltac:(lia) ltac:(lia)).
  destruct (_ <=? 999999999); [|done]. cbn [rbind days].
  unfold MAXORDINAL.
  destruct (Z.leb_spec (toordinal a + days d + (day_seconds a + seconds d) / 86400) 3652059);
    [lia|].
  by rewrite andb_false_r.
Qed.

Section Ends.

Variable e : ClipVideos.env.
Variable m : Z.
Hypothesis Hsize : int_of_string (ClipVideos.clipsize e) = Ok m.
Hypothesis Hm : 0 < m.

Lemma clip_loop_S (fuel : nat) video tripid divename (vs : datetime) (bound : Z)
    (elapsed : timedelta) :
  ClipVideos.clip_loop e (S fuel) video tripid divename vs bound elapsed
  = if seconds elapsed <? bound then
      bind (lift (dt_add vs elapsed)) (fun starttime =>
      bind (emit (ClipVideos.Call (ClipVideos.Boundary video elapsed (ClipVideos.clipsize e)
              (ClipVideos.outputdir +:+ "/" +:+ tripid +:+ "_" +:+ divename +:+ "_"
               +:+ strftime_clip starttime +:+ ".mp4")))) (fun _ =>
      bind (lift (int_of_string (ClipVideos.clipsize e))) (fun n =>
      bind (lift (mk_timedelta 0 (n * 60))) (fun step =>
      bind (lift (td_add elapsed step)) (fun elapsed' =>
      ClipVideos.clip_loop e fuel video tripid divename vs bound elapsed')))))
    else ret tt.
Proof. reflexivity. Qed.

Lemma clip_loop_ends video tripid divename (vs : datetime) (bound : Z) (n : nat)
    (elapsed : timedelta) :
  valid_datetime vs = true ->
  0 <= seconds elapsed < 86400 ->
  (MAXORDINAL + 1 - toordinal vs) * 86400 - total_seconds elapsed <= Z.of_nat n ->
  snd (ClipVideos.clip_loop e (S n) video tripid divename vs bound elapsed) <> OutOfFuel.
Proof.
  intros Hv. pose proof (day_seconds_nonneg _ Hv) as Hds.
  revert elapsed. induction n as [|n IH]; intros elapsed Hs Hmu.
  - cbn [ClipVideos.clip_loop]. destruct (_ <? _); [|done].
    rewrite dt_add_overflow; [done|done|lia|]. unfold total_seconds in Hmu. lia.
  - rewrite clip_loop_S. destruct (_ <? _); [|done].
    step_bind. destruct (dt_add vs elapsed) as [st| |] eqn:Hst; [|done|].
    2: { by apply dt_add_ends in Hst. }
    step_bind. rewrite Hsize. step_bind.
    destruct (mk_timedelta 0 (m * 60)) as [step| |] eqn:Hstep; [|done|].
    2: { by apply mk_timedelta_ends in Hstep. }
    step_bind.
    destruct (td_add elapsed step) as [el'| |] eqn:Hadd; [|done|].
    2: { by apply mk_timedelta_ends in Hadd. }
    cbn [snd]. apply total_mk_timedelta in Hstep as [Hstep _].
    apply total_mk_timedelta in Hadd as [Hadd Hwf].
    apply IH; [done|]. rewrite Hadd. unfold total_seconds in *. lia.
Qed.

Lemma parse_filename_ends (video : string) : ClipVideos.parse_filename video <> OutOfFuel.
Proof.
  unfold ClipVideos.parse_filename.
  destruct (split "_" video) as [|p0 [|p1 [|p2 [|p3 l]]]]; try done.
  cbn. by rewrite index_stem.
Qed.

Lemma float_of_string_ends (s : string) : float_of_string s <> OutOfFuel.
Proof. unfold float_of_string. by destruct (float_int _ _ _). Qed.

Lemma elapsed_end_ends (a b : datetime) : ClipVideos.elapsed_end a b <> OutOfFuel.
Proof.
  unfold ClipVideos.elapsed_end. pose proof (dt_sub_ends a b). by destruct (dt_sub a b).
Qed.

Lemma ends_bind_lift {A} (r : result A) (k : nat -> A -> M ClipVideos.event unit) :
  r <> OutOfFuel ->
  (forall a, r = Ok a -> exists fuel, snd (k fuel a) <> OutOfFuel) ->
  exists fuel, snd (bind (lift r) (k fuel)) <> OutOfFuel.
Proof.
  intros Hr Hk. destruct r as [a| |]; [|by exists 0%nat|done].
  destruct (Hk a eq_refl) as [fuel H]. exists fuel. by rewrite bind_lift.
Qed.

Lemma ends_bind_print (c : bool) (msg : string) (k : nat -> unit -> M ClipVideos.event unit) :
  (exists fuel, snd (k fuel tt) <> OutOfFuel) ->
  exists fuel, snd (bind (when c (emit (ClipVideos.Print msg))) (k fuel)) <> OutOfFuel.
Proof. intros [fuel H]. exists fuel. by rewrite when_emit, bind_out. Qed.

Lemma process_video_ends (starts ends : gmap string string) (video : string) :
  exists fuel, snd (ClipVideos.process_video e fuel starts ends video) <> OutOfFuel.
Proof.
  unfold ClipVideos.process_video.
  apply ends_bind_lift; [apply parse_filename_ends|].
  intros [[tripid divename] videostart] _.
  apply ends_bind_lift; [apply strptime_ends|]. intros vs Hvs.
  apply ends_bind_lift; [apply strptime_opt_ends|]. intros ts _.
  apply ends_bind_lift; [apply strptime_opt_ends|]. intros te _.
  apply ends_bind_print.
  apply ends_bind_lift; [apply dt_sub_td_ends|]. intros ts' _.
  apply ends_bind_lift; [apply dt_add_ends|]. intros te' _.
  apply ends_bind_lift; [apply dt_sub_ends|]. intros el Hel.
  apply ends_bind_lift; [apply float_of_string_ends|]. intros dur _.
  apply ends_bind_lift; [apply elapsed_end_ends|]. intros b _.
  apply ends_bind_print.
  apply total_mk_timedelta in Hel as [_ Hwf].
  exists (S (Z.to_nat ((MAXORDINAL + 1 - toordinal vs) * 86400 - total_seconds el))).
  apply clip_loop_ends; [by apply strptime_valid in Hvs|done|lia].
Qed.

Lemma for_each_ends (starts ends : gmap string string) (videos : list string) :
  exists fuel, forall fuel', (fuel <= fuel')%nat ->
    snd (for_each videos (ClipVideos.process_video e fuel' starts ends)) <> OutOfFuel.
Proof.
  induction videos as [|v videos [f2 IH]]; [by exists 0%nat|].
  destruct (process_video_ends starts ends v) as [f1 H1].
  exists (f1 `max` f2)%nat. intros fuel' Hle. cbn [for_each].
  rewrite (process_video_fuel e f1 fuel') by (done || lia).
  destruct (ClipVideos.process_video e f1 starts ends v) as [o [[]| |]]; [|done..].
  rewrite bind_out. cbn [snd]. apply IH. lia.
Qed.

Lemma csv_dict_ends (rows : list (list string)) (col1 col2 : Z) :
  ClipVideos.csv_dict rows col1 col2 <> OutOfFuel.
Proof.
  unfold ClipVideos.csv_dict. generalize (∅ : gmap string string).
  induction rows as [|r rows IH]; intros d; [done|].
  cbn [ClipVideos.csv_dict_from].
  destruct (index_z_outcome r (col1 - 1)) as [[k ->]| ->]; [|done].
  destruct (index_z_outcome r (col2 - 1)) as [[v ->]| ->]; [|done].
  apply IH.
Qed.

(** X7.  With a clip size that reads as a positive integer the script
    always ends, normally or with an exception: no clip loop can go on
    past the year 9999. *)
Theorem positive_clipsize_script_ends :
  exists fuel, forall fuel', (fuel <= fuel')%nat ->
    snd (ClipVideos.main e fuel') <> OutOfFuel.
Proof.
  unfold ClipVideos.main, ClipVideos.startsDict, ClipVideos.endsDict.
  pose proof (csv_dict_ends (ClipVideos.divelog e) (ClipVideos.dive e) (ClipVideos.start e)).
  pose proof (csv_dict_ends (ClipVideos.divelog e) (ClipVideos.dive e) (ClipVideos.end_ e)).
  destruct (ClipVideos.csv_dict _ _ (ClipVideos.start e)) as [starts| |];
    [|by exists 0%nat|done].
  destruct (ClipVideos.csv_dict _ _ (ClipVideos.end_ e)) as [ends| |];
    [|by exists 0%nat|done].
  destruct (for_each_ends (delete "Dive_Name" starts) (delete "Dive_Name" ends)
              (ClipVideos.videofiles e)) as [fuel Hfuel].
  exists fuel. intros fuel' Hle. cbn [rbind]. step_bind. by apply Hfuel.
Qed.

End Ends.

(** ** The caption script: set-up and runs *)




Section CaptionRuns.

Context {F : Type}.
Variable round_float : Z -> F -> F.
Variable str_float : F -> string.
Variable timedelta_str : list Z -> Z -> string.

Implicit Types (vdata data : list (GenerateSubtitles.row F)) (r : GenerateSubtitles.row F).
Implicit Types (e : GenerateSubtitles.env F).

Abbreviation process_video := (GenerateSubtitles.process_video round_float str_float timedelta_str).
Abbreviation main := (GenerateSubtitles.main round_float str_float timedelta_str).



(** X9.  A file of the clip folder whose name reads as a clip but for which
    the probe prints no number (a caption file left by an earlier run, for
    one) ends the run with [ValueError]: the caption files of the clips
    listed before it are written, none for it or for a later clip. *)
Theorem unreadable_clip_aborts e data (pre post : list string)
    (video tripid divename videostart : string) (clipStart : Z) :
  GenerateSubtitles.load (GenerateSubtitles.csv e) = Ok data ->
  GenerateSubtitles.videofiles e = pre ++ video :: post ->
  Forall (fun v => snd (process_video e data v) = Ok tt) pre ->
  GenerateSubtitles.parse_filename video = Ok (tripid, divename, videostart) ->
  GenerateSubtitles.to_datetime videostart fmt_clip = Ok clipStart ->
  float_of_string (keep_digits_dots (GenerateSubtitles.ffprobe e
     ("ffprobe -v error -show_entries format=duration "
      +:+ GenerateSubtitles.videopath e +:+ "/" +:+ video))) = Raise ValueError ->
  process_video e data video = ([], Raise ValueError)
  /\ main e = (concat (map (fun v => fst (process_video e data v)) pre), Raise ValueError).
Proof.
  intros Hload Hfiles Hpre Hparse Hstart Hprobe.
  assert (Hv : process_video e data video = ([], Raise ValueError)).
  { unfold GenerateSubtitles.process_video. rewrite Hparse. step_bind.
    rewrite Hstart. step_bind. by rewrite Hprobe. }
  split; [done|]. unfold GenerateSubtitles.main. rewrite Hload, Hfiles. step_bind.
  rewrite (for_each_abort _ pre post video [] ValueError Hpre Hv). by rewrite app_nil_r.
Qed.

(** X10.  A clip with no telemetry row or a single one in its window (its
    dive may be absent from the telemetry table) gets an empty caption
    file, and the run goes on. *)
Theorem sparse_clip_empty_file e data (video tripid divename videostart : string)
    (clipStart clipEnd : Z) (dur : decimal) :
  iterates e ->
  GenerateSubtitles.parse_filename video = Ok (tripid, divename, videostart) ->
  GenerateSubtitles.to_datetime videostart fmt_clip = Ok clipStart ->
  float_of_string (keep_digits_dots (GenerateSubtitles.ffprobe e
     ("ffprobe -v error -show_entries format=duration "
      +:+ GenerateSubtitles.videopath e +:+ "/" +:+ video))) = Ok dur ->
  GenerateSubtitles.ts_add clipStart (int_succ_decimal dur) = Ok clipEnd ->
  (length (GenerateSubtitles.select data divename clipStart clipEnd) <= 1)%nat ->
  process_video e data video
  = ([GenerateSubtitles.WriteFile
        (GenerateSubtitles.videopath e +:+ "/" +:+ stem video +:+ ".srt") []], Ok tt).
Proof.
  intros He Hparse Hstart Hprobe Hend Hlen.
  unfold GenerateSubtitles.process_video. rewrite Hparse. step_bind.
  rewrite Hstart. step_bind. rewrite Hprobe. step_bind. rewrite Hend. step_bind.
  rewrite entries_ok by (by apply othercols_labels). step_bind.
  rewrite index_stem. step_bind.
  by replace (length _ - 1)%nat with 0%nat by lia.
Qed.


End CaptionRuns.


(** ** Dates and ordinals *)

Lemma month_day_checked :
  forallb (month_day_ok false) (map Z.of_nat (seq 0 365)) = true
  /\ forallb (month_day_ok true) (map Z.of_nat (seq 0 365)) = true.
Proof. split; vm_compute; reflexivity. Qed.

Lemma month_day_spec (leapyear : bool) (n : Z) :
  0 <= n <= 364 -> month_day_ok leapyear n = true.
Proof.
  intros Hn. destruct month_day_checked as [H0 H1].
  assert (Hin : In n (map Z.of_nat (seq 0 365))).
  { apply in_map_iff. exists (Z.to_nat n). split; [lia|]. apply in_seq. lia. }
  destruct leapyear.
  - rewrite forallb_forall in H1. by apply H1.
  - rewrite forallb_forall in H0. by apply H0.
Qed.

Lemma ord2ymd_unfold (ordinal : Z) :
  ord2ymd ordinal
  = let n := ordinal - 1 in
    let n400 := n / 146097 in
    let r1 := n mod 146097 in
    let n100 := r1 / 36524 in
    let r2 := r1 mod 36524 in
    let n4 := r2 / 1461 in
    let r3 := r2 mod 1461 in
    let n1 := r3 / 365 in
    let r4 := r3 mod 365 in
    let y := n400 * 400 + 1 + n100 * 100 + n4 * 4 + n1 in
    if (n1 =? 4) || (n100 =? 4) then (y - 1, 12, 31)
    else
      let '(m, d) := month_day r4 ((n1 =? 3) && (negb (n4 =? 24) || (n100 =? 3))) in
      (y, m, d).
Proof.
  unfold ord2ymd, month_day, DI400Y, DI100Y, DI4Y. cbv zeta.
  destruct (_ || _); [done|]. by destruct (_ <? _).
Qed.

Lemma ord2ymd_correct (ordinal : Z) :
  1 <= ordinal <= MAXORDINAL ->
  let '(y, m, d) := ord2ymd ordinal in
  1 <= y <= 9999 /\ 1 <= m <= 12 /\ 1 <= d <= days_in_month y m
  /\ ymd2ord y m d = ordinal.
Proof.
  unfold MAXORDINAL. intros Hn. rewrite ord2ymd_unfold. cbv zeta.
  set (n := ordinal - 1).
  set (n400 := n / 146097). set (r1 := n mod 146097).
  set (n100 := r1 / 36524). set (r2 := r1 mod 36524).
  set (n4 := r2 / 1461). set (r3 := r2 mod 1461).
  set (n1 := r3 / 365). set (r4 := r3 mod 365).
  pose proof (Z.div_mod n 146097 ltac:(lia)) as E1.
  pose proof (Z.mod_pos_bound n 146097 ltac:(lia)) as B1.
  pose proof (Z.div_mod r1 36524 ltac:(lia)) as E2.
  pose proof (Z.mod_pos_bound r1 36524 ltac:(lia)) as B2.
  pose proof (Z.div_mod r2 1461 ltac:(lia)) as E3.
  pose proof (Z.mod_pos_bound r2 1461 ltac:(lia)) as B3.
  pose proof (Z.div_mod r3 365 ltac:(lia)) as E4.
  pose proof (Z.mod_pos_bound r3 365 ltac:(lia)) as B4.
  fold n400 r1 in E1, B1. fold n100 r2 in E2, B2. fold n4 r3 in E3, B3.
  fold n1 r4 in E4, B4.
  assert (0 <= n400 <= 24) by lia.
  assert (0 <= n100 <= 4) by lia.
  assert (0 <= n4 <= 24) by lia.
  assert (0 <= n1 <= 4) by lia.
  assert (Hord : ordinal = n + 1) by (unfold n; lia).
  clearbody n n400 r1 n100 r2 n4 r3 n1 r4.
  set (Y := n400 * 400 + 100 * n100 + 4 * n4 + n1).
  replace (n400 * 400 + 1 + n100 * 100 + n4 * 4 + n1) with (Y + 1) by (unfold Y; lia).
  assert (HY4 : Y / 4 = 100 * n400 + 25 * n100 + n4 + n1 / 4).
  { unfold Y. replace (n400 * 400 + 100 * n100 + 4 * n4 + n1)
      with (n1 + (100 * n400 + 25 * n100 + n4) * 4) by lia.
    rewrite Z.div_add by lia. lia. }
  assert (HY100 : Y / 100 = 4 * n400 + n100 + (4 * n4 + n1) / 100).
  { unfold Y. replace (n400 * 400 + 100 * n100 + 4 * n4 + n1)
      with (4 * n4 + n1 + (4 * n400 + n100) * 100) by lia.
    rewrite Z.div_add by lia. lia. }
  assert (HY400 : Y / 400 = n400 + (100 * n100 + 4 * n4 + n1) / 400).
  { unfold Y. replace (n400 * 400 + 100 * n100 + 4 * n4 + n1)
      with (100 * n100 + 4 * n4 + n1 + n400 * 400) by lia.
    rewrite Z.div_add by lia. lia. }
  destruct ((n1 =? 4) || (n100 =? 4)) eqn:Hend.
  - (* the last day of a leap year *)
    replace (Y + 1 - 1) with Y by lia.
    assert (Hcase : (n1 = 4 /\ r4 = 0 /\ n4 <= 23 /\ n100 <= 3)
                    \/ (n100 = 4 /\ r2 = 0 /\ n4 = 0 /\ n1 = 0 /\ r3 = 0 /\ r4 = 0)).
    { apply orb_true_iff in Hend as [H4|H4]; apply Z.eqb_eq in H4.
      - left. lia.
      - right. lia. }
    assert (Hleap : is_leap Y = true).
    { unfold is_leap. destruct Hcase as [(? & ? & ? & ?)|(? & ? & ? & ? & ? & ?)].
      - assert (Y mod 4 = 0).
        { unfold Y. replace (n400 * 400 + 100 * n100 + 4 * n4 + n1)
            with (0 + (100 * n400 + 25 * n100 + n4 + 1) * 4) by lia.
          by rewrite Z.mod_add by lia. }
        assert (Y mod 100 <> 0).
        { unfold Y. replace (n400 * 400 + 100 * n100 + 4 * n4 + n1)
            with (4 * n4 + 4 + (4 * n400 + n100) * 100) by lia.
          rewrite Z.mod_add by lia. rewrite Z.mod_small by lia. lia. }
        destruct (Z.eqb_spec (Y mod 4) 0); [|lia].
        destruct (Z.eqb_spec (Y mod 100) 0); [lia|]. done.
      - assert (Y mod 400 = 0).
        { unfold Y. replace (n400 * 400 + 100 * n100 + 4 * n4 + n1)
            with (0 + (n400 + 1) * 400) by lia.
          by rewrite Z.mod_add by lia. }
        assert (Y mod 4 = 0).
        { unfold Y. replace (n400 * 400 + 100 * n100 + 4 * n4 + n1)
            with (0 + (100 * n400 + 100) * 4) by lia.
          by rewrite Z.mod_add by lia. }
        destruct (Z.eqb_spec (Y mod 4) 0); [|lia].
        destruct (Z.eqb_spec (Y mod 400) 0); [|lia]. by rewrite orb_true_r. }
    assert (1 <= Y <= 9999).
    { unfold Y. destruct Hcase as [(? & ? & ? & ?)|(? & ? & ? & ? & ? & ?)]; lia. }
    split; [done|]. split; [lia|]. split; [by cbn|].
    unfold ymd2ord, days_before_year, days_before_month. rewrite Hleap. cbn [nth Z.to_nat].
    change (nth (Z.to_nat (12 - 1)) DAYS_BEFORE_MONTH 0) with 334.
    change ((2 <? 12) && true) with true. cbv iota.
    set (Y1 := Y - 1).
    assert (HY1 : Y1 / 4 = Y / 4 - 1 /\ Y1 / 100 = Y / 100 - (if Z.eq_dec n100 4 then 1 else 0)
                  /\ Y1 / 400 = Y / 400 - (if Z.eq_dec n100 4 then 1 else 0)).
    { unfold Y1, Y in *. destruct Hcase as [(? & ? & ? & ?)|(? & ? & ? & ? & ? & ?)].
      - destruct (Z.eq_dec n100 4); [lia|].
        repeat split.
        + rewrite HY4. replace (n1 / 4) with 1 by (by subst n1).
          replace (n400 * 400 + 100 * n100 + 4 * n4 + n1 - 1)
            with (3 + (100 * n400 + 25 * n100 + n4) * 4) by lia.
          rewrite Z.div_add by lia. change (3 / 4) with 0. lia.
        + replace (n400 * 400 + 100 * n100 + 4 * n4 + n1 - 1)
            with (4 * n4 + 3 + (4 * n400 + n100) * 100) by lia.
          rewrite Z.div_add by lia. rewrite Z.div_small by lia.
          replace (n400 * 400 + 100 * n100 + 4 * n4 + n1)
            with (4 * n4 + 4 + (4 * n400 + n100) * 100) by lia.
          rewrite Z.div_add by lia. rewrite Z.div_small by lia. lia.
        + replace (n400 * 400 + 100 * n100 + 4 * n4 + n1 - 1)
            with (100 * n100 + 4 * n4 + 3 + n400 * 400) by lia.
          rewrite Z.div_add by lia. rewrite Z.div_small by lia.
          replace (n400 * 400 + 100 * n100 + 4 * n4 + n1)
            with (100 * n100 + 4 * n4 + 4 + n400 * 400) by lia.
          rewrite Z.div_add by lia. rewrite Z.div_small by lia. lia.
      - destruct (Z.eq_dec n100 4); [|lia]. subst n100 n4 n1.
        repeat split.
        + replace (n400 * 400 + 100 * 4 + 4 * 0 + 0 - 1) with (3 + (100 * n400 + 99) * 4) by lia.
          rewrite Z.div_add by lia.
          replace (n400 * 400 + 100 * 4 + 4 * 0 + 0) with (0 + (100 * n400 + 100) * 4) by lia.
          rewrite Z.div_add by lia. change (3 / 4) with 0. change (0 / 4) with 0. lia.
        + replace (n400 * 400 + 100 * 4 + 4 * 0 + 0 - 1) with (99 + (4 * n400 + 3) * 100) by lia.
          rewrite Z.div_add by lia.
          replace (n400 * 400 + 100 * 4 + 4 * 0 + 0) with (0 + (4 * n400 + 4) * 100) by lia.
          rewrite Z.div_add by lia. change (99 / 100) with 0. change (0 / 100) with 0. lia.
        + replace (n400 * 400 + 100 * 4 + 4 * 0 + 0 - 1) with (399 + n400 * 400) by lia.
          rewrite Z.div_add by lia.
          replace (n400 * 400 + 100 * 4 + 4 * 0 + 0) with (0 + (n400 + 1) * 400) by lia.
          rewrite Z.div_add by lia. change (399 / 400) with 0. change (0 / 400) with 0. lia. }
    destruct HY1 as (-> & -> & ->). rewrite HY4, HY100, HY400. unfold Y1.
    destruct Hcase as [(? & ? & ? & ?)|(? & ? & ? & ? & ? & ?)].
    + destruct (Z.eq_dec n100 4); [lia|].
      replace (n1 / 4) with 1 by (by subst n1).
      rewrite (Z.div_small (4 * n4 + n1)) by lia.
      rewrite (Z.div_small (100 * n100 + 4 * n4 + n1)) by lia.
      unfold Y. lia.
    + destruct (Z.eq_dec n100 4); [|lia]. subst n100 n4 n1.
      change (0 / 4) with 0. change ((4 * 0 + 0) / 100) with 0.
      change ((100 * 4 + 4 * 0 + 0) / 400) with 1. unfold Y. lia.
  - apply orb_false_iff in Hend as [H4 H4']. apply Z.eqb_neq in H4, H4'.
    assert (n1 <= 3) by lia. assert (n100 <= 3) by lia.
    set (L := (n1 =? 3) && (negb (n4 =? 24) || (n100 =? 3))).
    pose proof (month_day_spec L r4 ltac:(lia)) as Hmd. unfold month_day_ok in Hmd.
    destruct (month_day r4 L) as [m d].
    rewrite !andb_true_iff, !Z.leb_le, Z.eqb_eq in Hmd.
    destruct Hmd as ((((Hm1 & Hm2) & Hd1) & Hd2) & Hsum).
    assert (Hleap : is_leap (Y + 1) = L).
    { unfold is_leap, L.
      assert (M4 : (Y + 1) mod 4 = (n1 + 1) mod 4).
      { unfold Y. replace (n400 * 400 + 100 * n100 + 4 * n4 + n1 + 1)
          with (n1 + 1 + (100 * n400 + 25 * n100 + n4) * 4) by lia.
        by rewrite Z.mod_add by lia. }
      assert (M100 : (Y + 1) mod 100 = (4 * n4 + n1 + 1) mod 100).
      { unfold Y. replace (n400 * 400 + 100 * n100 + 4 * n4 + n1 + 1)
          with (4 * n4 + n1 + 1 + (4 * n400 + n100) * 100) by lia.
        by rewrite Z.mod_add by lia. }
      assert (M400 : (Y + 1) mod 400 = (100 * n100 + 4 * n4 + n1 + 1) mod 400).
      { unfold Y. replace (n400 * 400 + 100 * n100 + 4 * n4 + n1 + 1)
          with (100 * n100 + 4 * n4 + n1 + 1 + n400 * 400) by lia.
        by rewrite Z.mod_add by lia. }
      rewrite M4, M100, M400.
      pose proof (Z.div_mod (n1 + 1) 4 ltac:(lia)).
      pose proof (Z.mod_pos_bound (n1 + 1) 4 ltac:(lia)).
      pose proof (Z.div_mod (4 * n4 + n1 + 1) 100 ltac:(lia)).
      pose proof (Z.mod_pos_bound (4 * n4 + n1 + 1) 100 ltac:(lia)).
      pose proof (Z.div_mod (100 * n100 + 4 * n4 + n1 + 1) 400 ltac:(lia)).
      pose proof (Z.mod_pos_bound (100 * n100 + 4 * n4 + n1 + 1) 400 ltac:(lia)).
      destruct (Z.eqb_spec ((n1 + 1) mod 4) 0), (Z.eqb_spec n1 3),
        (Z.eqb_spec ((4 * n4 + n1 + 1) mod 100) 0), (Z.eqb_spec n4 24),
        (Z.eqb_spec ((100 * n100 + 4 * n4 + n1 + 1) mod 400) 0), (Z.eqb_spec n100 3);
        cbn [andb negb orb]; try done; exfalso; lia. }
    assert (1 <= Y + 1 <= 9999).
    { unfold Y. split; [lia|].
      destruct (Z.eq_dec n400 24) as [E|]; [|lia]. lia. }
    split; [done|]. split; [done|].
    split.
    { unfold days_in_month. rewrite Hleap. split; [done|]. done. }
    unfold ymd2ord, days_before_year, days_before_month. rewrite Hleap.
    replace (Y + 1 - 1) with Y by lia. rewrite HY4, HY100, HY400.
    rewrite (Z.div_small n1) by lia.
    rewrite (Z.div_small (4 * n4 + n1)) by lia.
    rewrite (Z.div_small (100 * n100 + 4 * n4 + n1)) by lia.
    unfold Y. lia.
Qed.

(** Adding a timedelta to a datetime is exact: the result is a date and
    time of the calendar, as many seconds later as the timedelta says. *)
Lemma dt_add_exact (a b : datetime) (d : timedelta) :
  dt_add a d = Ok b ->
  valid_datetime b = true
  /\ GenerateSubtitles.epoch_seconds b = GenerateSubtitles.epoch_seconds a + total_seconds d.
Proof.
  unfold dt_add, mk_timedelta.
  set (D := toordinal a + days d + (day_seconds a + seconds d) / 86400).
  set (S := (day_seconds a + seconds d) mod 86400).
  destruct (_ <=? 999999999); [|done]. cbn [rbind days seconds].
  destruct (Z.ltb_spec 0 D); [|done]. destruct (Z.leb_spec D MAXORDINAL); [|done].
  cbn [andb]. pose proof (ord2ymd_correct D ltac:(lia)) as Hd.
  destruct (ord2ymd D) as [[y m] dd]. destruct Hd as (Hy & Hm & Hdd & Hord).
  intros [= <-].
  pose proof (Z.mod_pos_bound (day_seconds a + seconds d) 86400 ltac:(lia)) as HS.
  pose proof (Z.div_mod (day_seconds a + seconds d) 86400 ltac:(lia)) as HD.
  fold S in HS, HD.
  pose proof (Z.div_mod S 3600 ltac:(lia)). pose proof (Z.mod_pos_bound S 3600 ltac:(lia)).
  pose proof (Z.div_mod (S mod 3600) 60 ltac:(lia)).
  pose proof (Z.mod_pos_bound (S mod 3600) 60 ltac:(lia)).
  split.
  - unfold valid_datetime. cbn [year month day hour minute second].
    rewrite !andb_true_iff, !Z.leb_le. repeat split; lia.
  - unfold GenerateSubtitles.epoch_seconds, toordinal, day_seconds, total_seconds in *.
    cbn [year month day hour minute second]. rewrite Hord. unfold D. lia.
Qed.

(** ** Clip names *)

Lemma digit_digit_char (x : Z) : 0 <= x <= 9 -> digit (digit_char x) = Some x.
Proof.
  intros Hx. unfold digit, digit_char.
  rewrite nat_ascii_embedding by lia. rewrite Z2Nat.id by lia.
  destruct (Z.leb_spec 48 (48 + x)); [|lia]. destruct (Z.leb_spec (48 + x) 57); [|lia].
  cbn [andb]. f_equal. lia.
Qed.

Lemma digit_char_neq (x : Z) (c : ascii) :
  0 <= x <= 9 -> digit c = None -> Ascii.eqb (digit_char x) c = false.
Proof.
  intros Hx Hc. destruct (Ascii.eqb_spec (digit_char x) c) as [<-|]; [|done].
  by rewrite digit_digit_char in Hc.
Qed.

Lemma has_char_app (c : ascii) (s t : string) :
  has_char c (s +:+ t) = has_char c s || has_char c t.
Proof.
  induction s as [|a s IH]; [done|].
  change (has_char c (String a s +:+ t)) with (Ascii.eqb a c || has_char c (s +:+ t)).
  rewrite IH. cbn [has_char]. by rewrite orb_assoc.
Qed.

Lemma string_app_assoc (s t u : string) : (s +:+ t) +:+ u = s +:+ t +:+ u.
Proof.
  induction s as [|a s IH]; [done|].
  change (String a ((s +:+ t) +:+ u) = String a (s +:+ t +:+ u)). by rewrite IH.
Qed.

Lemma div10_range (v : Z) : 0 <= v <= 99 -> 0 <= v / 10 <= 9 /\ 0 <= v mod 10 <= 9.
Proof.
  intros Hv. pose proof (Z.div_mod v 10 ltac:(lia)).
  pose proof (Z.mod_pos_bound v 10 ltac:(lia)). lia.
Qed.

Lemma pad2_chars (v : Z) :
  0 <= v <= 99 ->
  pad2 v = String (digit_char (v / 10)) (String (digit_char (v mod 10)) "").
Proof.
  intros Hv. destruct (div10_range v Hv) as [H1 H2].
  rewrite <- (pad2_digits _ _ _ _ (digit_digit_char _ H1) (digit_digit_char _ H2)).
  f_equal. pose proof (Z.div_mod v 10 ltac:(lia)). lia.
Qed.

Lemma pad4_chars (v : Z) :
  1000 <= v <= 9999 ->
  pad4 v = String (digit_char (v / 1000)) (String (digit_char (v / 100 mod 10))
             (String (digit_char (v / 10 mod 10)) (String (digit_char (v mod 10)) ""))).
Proof.
  intros Hv. unfold pad4.
  destruct (Z.ltb_spec v 10); [lia|]. destruct (Z.ltb_spec v 100); [lia|].
  destruct (Z.ltb_spec v 1000); [lia|]. rewrite !andb_false_r.
  apply str_int_4. lia.
Qed.

(** The text [strftime] gives for a datetime of the years 1000-9999: eight
    digits, an underscore and six digits, which [strptime] reads back. *)
Lemma strftime_clip_parses (dt : datetime) :
  valid_datetime dt = true -> 1000 <= year dt ->
  exists date time,
    strftime_clip dt = date +:+ "_" +:+ time
    /\ has_char "_" date = false /\ has_char "_" time = false
    /\ has_char "." time = false
    /\ strptime (strftime_clip dt) fmt_clip = Ok dt.
Proof.
  intros Hvalid Hy. pose proof (valid_datetime_bounds _ Hvalid) as (HY & HM & HD & Hh & Hm & Hs).
  destruct dt as [Y M D h m s]. cbn [year month day hour minute second] in *.
  unfold strftime_clip. cbn [year month day hour minute second].
  rewrite (pad4_chars Y), !pad2_chars by lia.
  pose proof (Z.div_mod Y 1000 ltac:(lia)). pose proof (Z.mod_pos_bound Y 1000 ltac:(lia)).
  pose proof (Z.div_mod Y 100 ltac:(lia)). pose proof (Z.mod_pos_bound Y 100 ltac:(lia)).
  pose proof (Z.div_mod (Y / 100) 10 ltac:(lia)).
  pose proof (Z.mod_pos_bound (Y / 100) 10 ltac:(lia)).
  pose proof (Z.div_mod Y 10 ltac:(lia)). pose proof (Z.mod_pos_bound Y 10 ltac:(lia)).
  pose proof (Z.div_mod (Y / 10) 10 ltac:(lia)).
  pose proof (Z.mod_pos_bound (Y / 10) 10 ltac:(lia)).
  assert (HY1 : 0 <= Y / 1000 <= 9) by lia.
  assert (HY2 : 0 <= Y / 100 mod 10 <= 9) by lia.
  assert (HY3 : 0 <= Y / 10 mod 10 <= 9) by lia.
  assert (HY4 : 0 <= Y mod 10 <= 9) by lia.
  destruct (div10_range M ltac:(lia)) as [HM1 HM2].
  destruct (div10_range D ltac:(lia)) as [HD1 HD2].
  destruct (div10_range h ltac:(lia)) as [Hh1 Hh2].
  destruct (div10_range m ltac:(lia)) as [Hm1 Hm2].
  destruct (div10_range s ltac:(lia)) as [Hs1 Hs2].
  pose proof (digit_digit_char _ HY1) as Ey1. pose proof (digit_digit_char _ HY2) as Ey2.
  pose proof (digit_digit_char _ HY3) as Ey3. pose proof (digit_digit_char _ HY4) as Ey4.
  pose proof (digit_digit_char _ HM1) as EM1. pose proof (digit_digit_char _ HM2) as EM2.
  pose proof (digit_digit_char _ HD1) as ED1. pose proof (digit_digit_char _ HD2) as ED2.
  pose proof (digit_digit_char _ Hh1) as Eh1. pose proof (digit_digit_char _ Hh2) as Eh2.
  pose proof (digit_digit_char _ Hm1) as Em1. pose proof (digit_digit_char _ Hm2) as Em2.
  pose proof (digit_digit_char _ Hs1) as Es1. pose proof (digit_digit_char _ Hs2) as Es2.
  pose proof (Z.div_mod M 10 ltac:(lia)). pose proof (Z.div_mod D 10 ltac:(lia)).
  pose proof (Z.div_mod h 10 ltac:(lia)). pose proof (Z.div_mod m 10 ltac:(lia)).
  pose proof (Z.div_mod s 10 ltac:(lia)).
  assert (Hu : digit "_" = None) by done. assert (Hdot : digit "." = None) by done.
  eexists (String _ (String _ (String _ (String _ (String _ (String _
             (String _ (String _ "")))))))),
    (String _ (String _ (String _ (String _ (String _ (String _ "")))))).
  split; [reflexivity|].
  split; [cbn [has_char]; by rewrite !digit_char_neq|].
  split; [cbn [has_char]; by rewrite !digit_char_neq|].
  split; [cbn [has_char]; by rewrite !digit_char_neq|].
  cbv beta iota fix delta [append].
  assert (Hclip : first_is (match_format fmt_clip (Datetime 1900 1 1 0 0 0)
      (String (digit_char (Y / 1000)) (String (digit_char (Y / 100 mod 10))
        (String (digit_char (Y / 10 mod 10)) (String (digit_char (Y mod 10))
          (String (digit_char (M / 10)) (String (digit_char (M mod 10))
            (String (digit_char (D / 10)) (String (digit_char (D mod 10))
              (String "_" (String (digit_char (h / 10)) (String (digit_char (h mod 10))
                (String (digit_char (m / 10)) (String (digit_char (m mod 10))
                  (String (digit_char (s / 10)) (String (digit_char (s mod 10)) ""))))))))))))))))
      (Datetime (1000 * (Y / 1000) + 100 * (Y / 100 mod 10) + 10 * (Y / 10 mod 10) + Y mod 10)
         (10 * (M / 10) + M mod 10) (10 * (D / 10) + D mod 10)
         (10 * (h / 10) + h mod 10) (10 * (m / 10) + m mod 10) (10 * (s / 10) + s mod 10), "")).
  { unfold fmt_clip.
    eapply match_format_cons.
    { cbn [match_directive]. unfold with_field. apply first_is_map.
      rewrite (re_Y_four _ _ _ _ _ _ _ _ _ Ey1 Ey2 Ey3 Ey4). by eexists. }
    cbn [fst snd set_year year month day hour minute second].
    match_step re_m_two. match_step re_d_two.
    eapply match_format_cons.
    { cbn [match_directive]. rewrite Ascii.eqb_refl. by eexists. }
    cbn [fst snd].
    match_step re_H_two. match_step re_M_two. match_step re_S_two.
    by eexists. }
  assert (Hdt : Datetime (1000 * (Y / 1000) + 100 * (Y / 100 mod 10) + 10 * (Y / 10 mod 10)
                          + Y mod 10)
                  (10 * (M / 10) + M mod 10) (10 * (D / 10) + D mod 10)
                  (10 * (h / 10) + h mod 10) (10 * (m / 10) + m mod 10)
                  (10 * (s / 10) + s mod 10)
                = Datetime Y M D h m s).
  { f_equal; lia. }
  unfold strptime. destruct Hclip as [tl ->]. by rewrite Hdt, Hvalid.
Qed.

Lemma clip_loop_names (e : ClipVideos.env) (fuel : nat) (video tripid divename : string)
    (vs : datetime) (bound : Z) (elapsed : timedelta) :
  Forall (fun b => exists st,
            dt_add vs (ClipVideos.offset b) = Ok st
            /\ ClipVideos.clipname b
               = ClipVideos.outputdir +:+ "/" +:+ clip_basename tripid divename st)
         (boundaries (fst (ClipVideos.clip_loop e fuel video tripid divename vs bound elapsed))).
Proof.
  revert elapsed. induction fuel as [|fuel IH]; intros elapsed; [by constructor|].
  rewrite clip_loop_S. destruct (_ <? _); [|by constructor].
  step_bind. destruct (dt_add vs elapsed) as [st| |] eqn:Hst; [|by constructor..].
  step_bind. cbn [fst boundaries]. constructor; [by exists st|].
  destruct (int_of_string (ClipVideos.clipsize e)) as [n| |]; [|by constructor..].
  step_bind. destruct (mk_timedelta 0 (n * 60)) as [step| |]; [|by constructor..].
  step_bind. destruct (td_add elapsed step) as [el'| |]; [|by constructor..].
  apply IH.
Qed.

Lemma parse_clip_basename (tripid divename : string) (st : datetime) :
  has_char "_" tripid = false -> has_char "_" divename = false ->
  valid_datetime st = true -> 1000 <= year st ->
  GenerateSubtitles.parse_filename (clip_basename tripid divename st)
  = Ok (tripid, divename, strftime_clip st).
Proof.
  intros Ht Hd Hv Hy.
  destruct (strftime_clip_parses st Hv Hy) as (date & time & Hs & Hdate & Htime & Hdot & _).
  unfold clip_basename, GenerateSubtitles.parse_filename. rewrite Hs.
  change ("_" +:+ time) with (String "_" time).
  rewrite (string_app_assoc date).
  change (String "_" time +:+ ".mp4") with (String "_" (time +:+ String "." "mp4")).
  change ("_" +:+ divename +:+ ?x) with (String "_" (divename +:+ x)).
  change (divename +:+ "_" +:+ ?x) with (divename +:+ String "_" x).
  rewrite !split_app_sep by done.
  rewrite (split_clean "_" (time +:+ String "." "mp4")).
  2: { by rewrite has_char_app, Htime. }
  cbn [index lookup list_lookup rbind].
  rewrite (split_app_sep "." time "mp4" Hdot). by cbn.
Qed.

(** X13.  The two scripts agree on the clips.  Every clip cut from a video
    is named [tripid_divename_YYYYMMDD_HHMMSS.mp4] after the start of the
    video plus the offset of the clip; for a clip that starts in the years
    1000-9999 the caption script reads from this name the same trip and
    dive and, as the start of the clip, exactly that instant. *)
Theorem clip_names_read_back (e : ClipVideos.env) (fuel : nat)
    (video tripid divename videostart : string) (vs : datetime) (bound : Z)
    (elapsed : timedelta) (b : ClipVideos.boundary) :
  ClipVideos.parse_filename video = Ok (tripid, divename, videostart) ->
  b ∈ boundaries (fst (ClipVideos.clip_loop e fuel video tripid divename vs bound elapsed)) ->
  exists st,
    dt_add vs (ClipVideos.offset b) = Ok st
    /\ ClipVideos.clipname b
       = ClipVideos.outputdir +:+ "/" +:+ clip_basename tripid divename st
    /\ GenerateSubtitles.epoch_seconds st
       = GenerateSubtitles.epoch_seconds vs + total_seconds (ClipVideos.offset b)
    /\ (1000 <= year st ->
        GenerateSubtitles.parse_filename (clip_basename tripid divename st)
        = Ok (tripid, divename, strftime_clip st)
        /\ strptime (strftime_clip st) fmt_clip = Ok st
        /\ (GenerateSubtitles.in_ns_range (GenerateSubtitles.epoch_seconds st) = true ->
            GenerateSubtitles.to_datetime (strftime_clip st) fmt_clip
            = Ok (GenerateSubtitles.epoch_seconds vs
                  + total_seconds (ClipVideos.offset b)))).
Proof.
  intros Hparse Hb.
  pose proof (clip_loop_names e fuel video tripid divename vs bound elapsed) as Hall.
  rewrite Forall_forall in Hall. destruct (Hall b Hb) as (st & Hst & Hname).
  destruct (dt_add_exact _ _ _ Hst) as [Hvalid Hepoch].
  exists st. split; [done|]. split; [done|]. split; [done|].
  intros Hy.
  assert (Hclean : has_char "_" tripid = false /\ has_char "_" divename = false).
  { unfold ClipVideos.parse_filename in Hparse.
    pose proof (split_fields_clean "_" video) as Hc.
    destruct (split "_" video) as [|p0 [|p1 [|p2 [|p3 l]]]]; try done.
    cbn in Hparse. rewrite index_stem in Hparse. cbn in Hparse.
    injection Hparse as <- <- _.
    inversion Hc as [|? ? H0 Hc']; subst. inversion Hc' as [|? ? H1 _]; subst. done. }
  destruct Hclean as [Ht Hd].
  destruct (strftime_clip_parses st Hvalid Hy) as (date & time & _ & _ & _ & _ & Hp).
  split; [by apply parse_clip_basename|]. split; [done|].
  intros Hrange. unfold GenerateSubtitles.to_datetime. rewrite Hp. cbn [rbind].
  by rewrite Hrange, Hepoch.
Qed.

(** ** The further properties at concrete inputs *)

Lemma dive_log_index_lookup_witness :
  MoreExamples.worked_starts !! "Dive_Name" = None
  /\ MoreExamples.worked_ends !! "Dive_Name" = None
  /\ forall k, k <> "Dive_Name" ->
       MoreExamples.worked_starts !! k
       = last_row_value (ClipVideos.divelog Examples.worked) 1 2 k
       /\ MoreExamples.worked_ends !! k
          = last_row_value (ClipVideos.divelog Examples.worked) 1 3 k.
Proof.
  apply (dive_log_index_lookup Examples.worked); reflexivity.
Defined.

Lemma short_log_row_aborts_witness :
  ClipVideos.startsDict MoreExamples.blank_line = Raise IndexError
  /\ ClipVideos.main MoreExamples.blank_line 4 = ([], Raise IndexError).
Proof.
  apply (short_log_row_aborts MoreExamples.blank_line 4 []).
  - cbn. lia.
  - cbn. lia.
  - cbn. apply list_elem_of_further, list_elem_of_here.
  - left. cbn. lia.
Defined.

Lemma probe_only_warns_witness :
  same_clips
    (ClipVideos.process_video Examples.worked 4 MoreExamples.worked_starts
       MoreExamples.worked_ends "TR1_D01_20220701_095000.mp4")
    (ClipVideos.process_video
       (set_ffprobe Examples.worked (fun _ => Examples.probe_output "5000.0")) 4
       MoreExamples.worked_starts MoreExamples.worked_ends "TR1_D01_20220701_095000.mp4").
Proof.
  apply (probe_only_warns Examples.worked (fun _ => Examples.probe_output "5000.0") 4
           MoreExamples.worked_starts MoreExamples.worked_ends
           "TR1_D01_20220701_095000.mp4" (Decimal 1800000000 6) (Decimal 50000 1));
    reflexivity.
Defined.

Lemma clip_offsets_progression_witness :
  let out := fst (ClipVideos.clip_loop Examples.worked 4 "TR1_D01_20220701_095000.mp4"
                    "TR1" "D01" (Datetime 2022 7 1 9 50 0) 1830 (Timedelta 0 570)) in
  offsets out
  = map (fun k => total_seconds (Timedelta 0 570) + Z.of_nat k * (10 * 60))
        (seq 0 (length (boundaries out)))
  /\ Forall (fun b => ClipVideos.source b = "TR1_D01_20220701_095000.mp4"
                      /\ ClipVideos.length_min b = ClipVideos.clipsize Examples.worked)
            (boundaries out).
Proof.
  apply (clip_offsets_progression Examples.worked "TR1_D01_20220701_095000.mp4"
           "TR1" "D01" (Datetime 2022 7 1 9 50 0) 1830 4 (Timedelta 0 570) 10).
  reflexivity.
Defined.

Lemma zero_clipsize_never_ends_witness :
  snd (ClipVideos.clip_loop (MoreExamples.with_clipsize "0") 5 "TR1_D01_20220701_095000.mp4"
         "TR1" "D01" (Datetime 2022 7 1 9 50 0) 1830 (Timedelta 0 570)) = OutOfFuel
  /\ offsets (fst (ClipVideos.clip_loop (MoreExamples.with_clipsize "0") 5
                     "TR1_D01_20220701_095000.mp4" "TR1" "D01" (Datetime 2022 7 1 9 50 0)
                     1830 (Timedelta 0 570)))
     = repeat (total_seconds (Timedelta 0 570)) 5.
Proof.
  apply (zero_clipsize_never_ends (MoreExamples.with_clipsize "0")
           "TR1_D01_20220701_095000.mp4" "TR1" "D01" (Datetime 2022 7 1 9 50 0) 1830 5
           (Timedelta 0 570) (Datetime 2022 7 1 9 59 30)).
  - reflexivity.
  - cbn. lia.
  - cbn. lia.
  - cbn. lia.
  - reflexivity.
Defined.

Lemma bad_clipsize_after_first_clip_witness :
  (forall st, seconds (Timedelta 0 570) < 1830 ->
     dt_add (Datetime 2022 7 1 9 50 0) (Timedelta 0 570) = Ok st ->
     ClipVideos.clip_loop (MoreExamples.with_clipsize "ten") 4 "TR1_D01_20220701_095000.mp4"
       "TR1" "D01" (Datetime 2022 7 1 9 50 0) 1830 (Timedelta 0 570)
     = ([ClipVideos.Call (ClipVideos.Boundary "TR1_D01_20220701_095000.mp4" (Timedelta 0 570)
           "ten"
           (ClipVideos.outputdir +:+ "/" +:+ "TR1" +:+ "_" +:+ "D01" +:+ "_"
            +:+ strftime_clip st +:+ ".mp4"))],
        Raise ValueError))
  /\ (1830 <= seconds (Timedelta 0 570) ->
      ClipVideos.clip_loop (MoreExamples.with_clipsize "ten") 4 "TR1_D01_20220701_095000.mp4"
        "TR1" "D01" (Datetime 2022 7 1 9 50 0) 1830 (Timedelta 0 570) = ([], Ok tt)).
Proof.
  apply (bad_clipsize_after_first_clip (MoreExamples.with_clipsize "ten")
           "TR1_D01_20220701_095000.mp4" "TR1" "D01" (Datetime 2022 7 1 9 50 0) 1830 3
           (Timedelta 0 570)).
  reflexivity.
Defined.

Lemma positive_clipsize_script_ends_witness :
  exists fuel, forall fuel', (fuel <= fuel')%nat ->
    snd (ClipVideos.main Examples.worked fuel') <> OutOfFuel.
Proof.
  apply (positive_clipsize_script_ends Examples.worked 10).
  - reflexivity.
  - lia.
Defined.


Lemma unreadable_clip_aborts_witness :
  GenerateSubtitles.process_video Examples.no_round Examples.no_str Examples.td_long
    MoreExamples.rerun MoreExamples.loaded "TR1_D01_20220701_100000.srt"
  = ([], Raise ValueError)
  /\ GenerateSubtitles.main Examples.no_round Examples.no_str Examples.td_long
       MoreExamples.rerun
     = (concat (map (fun v => fst (GenerateSubtitles.process_video Examples.no_round
                                     Examples.no_str Examples.td_long MoreExamples.rerun
                                     MoreExamples.loaded v))
                  ["TR1_D01_20220701_100000.mp4"]),
        Raise ValueError).
Proof.
  apply (unreadable_clip_aborts Examples.no_round Examples.no_str Examples.td_long
           MoreExamples.rerun MoreExamples.loaded ["TR1_D01_20220701_100000.mp4"]
           ["TR1_D01_20220701_101000.mp4"] "TR1_D01_20220701_100000.srt"
           "TR1" "D01" "20220701_100000" 1656669600).
  - reflexivity.
  - reflexivity.
  - constructor; [reflexivity|constructor].
  - reflexivity.
  - reflexivity.
  - reflexivity.
Defined.

Lemma sparse_clip_empty_file_witness :
  GenerateSubtitles.process_video Examples.no_round Examples.no_str Examples.td_long
    MoreExamples.other_dive MoreExamples.loaded "TR1_D02_20220701_100000.mp4"
  = ([GenerateSubtitles.WriteFile
        (GenerateSubtitles.videopath MoreExamples.other_dive +:+ "/"
         +:+ stem "TR1_D02_20220701_100000.mp4" +:+ ".srt") []], Ok tt).
Proof.
  apply (sparse_clip_empty_file Examples.no_round Examples.no_str Examples.td_long
           MoreExamples.other_dive MoreExamples.loaded "TR1_D02_20220701_100000.mp4"
           "TR1" "D02" "20220701_100000" 1656669600 1656669612 (Decimal 11000000 6)).
  - apply iterates_elements.
  - reflexivity.
  - reflexivity.
  - reflexivity.
  - reflexivity.
  - vm_compute. lia.
Defined.



Lemma clip_names_read_back_witness :
  exists st,
    dt_add (Datetime 2022 7 1 9 50 0) (Timedelta 0 1170) = Ok st
    /\ "Video_clips/TR1_D01_20220701_100930.mp4"
       = ClipVideos.outputdir +:+ "/" +:+ clip_basename "TR1" "D01" st
    /\ GenerateSubtitles.epoch_seconds st
       = GenerateSubtitles.epoch_seconds (Datetime 2022 7 1 9 50 0)
         + total_seconds (Timedelta 0 1170)
    /\ (1000 <= year st ->
        GenerateSubtitles.parse_filename (clip_basename "TR1" "D01" st)
        = Ok ("TR1", "D01", strftime_clip st)
        /\ strptime (strftime_clip st) fmt_clip = Ok st
        /\ (GenerateSubtitles.in_ns_range (GenerateSubtitles.epoch_seconds st) = true ->
            GenerateSubtitles.to_datetime (strftime_clip st) fmt_clip
            = Ok (GenerateSubtitles.epoch_seconds (Datetime 2022 7 1 9 50 0)
                  + total_seconds (Timedelta 0 1170)))).
Proof.
  apply (clip_names_read_back Examples.worked 4 "TR1_D01_20220701_095000.mp4"
           "TR1" "D01" "20220701 095000" (Datetime 2022 7 1 9 50 0) 1830 (Timedelta 0 570)
           (ClipVideos.Boundary "TR1_D01_20220701_095000.mp4" (Timedelta 0 1170) "10"
              "Video_clips/TR1_D01_20220701_100930.mp4")).
  - reflexivity.
  - cbn. apply list_elem_of_further, list_elem_of_here.
Defined.

Lemma clip_loop_within_day_witness :
  exists out,
    ClipVideos.clip_loop Examples.worked 4 "TR1_D01_20220701_095930.mp4" "TR1" "D01"
      (Datetime 2022 7 1 9 59 30) 1260 (Timedelta 0 0) = (out, Ok tt)
    /\ length (boundaries out) = Z.to_nat (ceil_div 1260 (10 * 60))
    /\ offsets out
       = map (fun k => Z.of_nat k * (10 * 60)) (seq 0 (Z.to_nat (ceil_div 1260 (10 * 60))))
    /\ Forall (fun b => ClipVideos.length_min b = ClipVideos.clipsize Examples.worked
                        /\ ClipVideos.source b = "TR1_D01_20220701_095930.mp4")
              (boundaries out).
Proof.
  apply (clip_loop_within_day Examples.worked "TR1_D01_20220701_095930.mp4" "TR1" "D01"
           (Datetime 2022 7 1 9 59 30) 10 1260).
  - reflexivity.
  - cbn. lia.
  - reflexivity.
  - lia.
  - lia.
  - lia.
  - vm_compute. lia.
Defined.

(** X15.  The bound of the clip loop is the time from the start of the
    video to the buffered end of the transect taken modulo one day: a
    number of seconds from 0 to 86399, whatever the two dates. *)
Theorem elapsed_end_mod_day (transectEnd videoStart : datetime) (bound : Z) :
  ClipVideos.elapsed_end transectEnd videoStart = Ok bound ->
  bound = (GenerateSubtitles.epoch_seconds transectEnd
           - GenerateSubtitles.epoch_seconds videoStart) mod 86400
  /\ 0 <= bound < 86400.
Proof.
  unfold ClipVideos.elapsed_end.
  destruct (dt_sub transectEnd videoStart) as [d| |] eqn:Hd; try done.
  cbn [rbind]. intros [= <-].
  destruct (dt_sub_seconds _ _ _ Hd) as [Ht Hs].
  split.
  - rewrite Hs, Ht. unfold GenerateSubtitles.epoch_seconds. f_equal. lia.
  - by apply total_mk_timedelta in Hd as [_ Hd].
Qed.

Lemma elapsed_end_mod_day_witness :
  1830 = (GenerateSubtitles.epoch_seconds (Datetime 2022 7 2 10 20 30)
          - GenerateSubtitles.epoch_seconds (Datetime 2022 7 1 9 50 0)) mod 86400
  /\ 0 <= 1830 < 86400.
Proof.
  apply (elapsed_end_mod_day (Datetime 2022 7 2 10 20 30) (Datetime 2022 7 1 9 50 0) 1830).
  reflexivity.
Defined.
